(** * addressAPI: a geocoding gateway in front of Nominatim

    A shallow embedding of the request path of the repository

      controllers/nominatimcontroller.py  ->  services/nominatimservices.py
                                          ->  clients/nominatimClient.py

    together with the DTOs of DTOs/nominatimDtos.py and the validation
    handler of main.py, followed by the properties of the specification
    that were checked against it.

    Conventions.
    - A Python [str] is a [string]; each character stands for one code
      point below 256, and [isspace] is Python's [str.isspace] on that range.
    - A Python [int] is a [Z]; a Python [float] is a binary64 [float].
    - A decoded JSON document (what [response.json()] returns) is a [json];
      a JSON object is a finite map from keys to values.
    - A raised exception is a value of [exn]; a call that may raise returns
      a [result].  Outbound HTTP calls are recorded in a log that is
      threaded through the [io] monad, so that "no outbound call" is a
      statement about that log.
    - [async]/[await] is sequential here: the handlers await every call
      they issue before they go on. *)

From Stdlib Require Import ZArith String Ascii List Bool Floats DecimalString.
From stdpp Require Import gmap strings list fin_maps.

#[local] Set Warnings "-register-all,-inexact-float".
#[local] Open Scope Z_scope.
#[local] Open Scope string_scope.

(** ** Python strings *)

(** [str.isspace] for one character (code points below 256): TAB..CR,
    FS..US, SPACE, NEL and NBSP. *)
Definition isspace (c : ascii) : bool :=
  let n := nat_of_ascii c in
  (Nat.leb 9 n && Nat.leb n 13) || (Nat.leb 28 n && Nat.leb n 31)
  || Nat.eqb n 32 || Nat.eqb n 133 || Nat.eqb n 160.

Fixpoint lstrip (s : string) : string :=
  match s with
  | EmptyString => EmptyString
  | String c s' => if isspace c then lstrip s' else s
  end.

Fixpoint rstrip (s : string) : string :=
  match s with
  | EmptyString => EmptyString
  | String c s' =>
      match rstrip s' with
      | EmptyString => if isspace c then EmptyString else String c EmptyString
      | r => String c r
      end
  end.

(** [s.strip()] *)
Definition strip (s : string) : string := rstrip (lstrip s).

(** Every character of the string is whitespace (the empty string
    included): the "empty or whitespace-only" strings. *)
Fixpoint blank (s : string) : bool :=
  match s with
  | EmptyString => true
  | String c s' => isspace c && blank s'
  end.

(** [str(n)] for an [int], as an f-string renders it. *)
Definition str_int (n : Z) : string := NilZero.string_of_int (Z.to_int n).

(** One character given by its code point, for the accented letters of
    the messages. *)
Definition chr (n : nat) : string := String (ascii_of_nat n) EmptyString.

(** ** Decoded JSON *)

Inductive json : Type :=
| JNull
| JBool (b : bool)
| JInt (n : Z)
| JFloat (x : float)
| JStr (s : string)
| JList (items : list json)
| JObj (fields : gmap string json).

(** Python's truth value of a decoded JSON value. *)
Definition truthy (v : json) : bool :=
  match v with
  | JNull => false
  | JBool b => b
  | JInt n => negb (Z.eqb n 0)
  | JFloat x => negb (PrimFloat.eqb x 0%float)
  | JStr s => negb (String.eqb s "")
  | JList items => negb (Nat.eqb (length items) 0)
  | JObj fields => negb (Nat.eqb (size fields) 0)
  end.

(** ** Exceptions and results *)

Inductive exn : Type :=
| HTTPException (status_code : Z) (detail : string)
| KeyError (key : string)
| AttributeError
| TypeError
| ValidationError
| TransportError
| JSONDecodeError.

Inductive result (A : Type) : Type :=
| Ok (a : A)
| Raise (e : exn).
Arguments Ok {A} a.
Arguments Raise {A} e.

#[export] Instance result_ret : MRet result := fun A a => Ok a.
#[export] Instance result_bind : MBind result := fun A B k r =>
  match r with
  | Ok a => k a
  | Raise e => Raise e
  end.

(** [d.get(key)], [d.get(key, default)] and [d[key]] on a dict. *)
Definition dict_get (d : gmap string json) (key : string) : json :=
  default JNull (d !! key).

Definition dict_get_default (d : gmap string json) (key : string) (dflt : json) : json :=
  default dflt (d !! key).

Definition dict_item (d : gmap string json) (key : string) : result json :=
  match d !! key with
  | Some v => Ok v
  | None => Raise (KeyError key)
  end.

(** [v.get(key)] on an arbitrary decoded value: only a dict has [get]. *)
Definition value_get (v : json) (key : string) : result json :=
  match v with
  | JObj d => Ok (dict_get d key)
  | _ => Raise AttributeError
  end.

Definition value_get_default (v : json) (key : string) (dflt : json) : result json :=
  match v with
  | JObj d => Ok (dict_get_default d key dflt)
  | _ => Raise AttributeError
  end.

(** Does [sub] occur in [s]?  ([sub in s] on two strings.) *)
Fixpoint str_contains (sub s : string) : bool :=
  String.prefix sub s ||
  match s with
  | EmptyString => false
  | String _ s' => str_contains sub s'
  end.

(** [v[key]] on an arbitrary decoded value with a string key. *)
Definition value_item (v : json) (key : string) : result json :=
  match v with
  | JObj d => dict_item d key
  | _ => Raise TypeError
  end.

(** [key in v] for a string key: membership in a dict's keys, in a list's
    items, substring of a string; the other values are not containers. *)
Definition value_contains (key : string) (v : json) : result bool :=
  match v with
  | JObj d => Ok (bool_decide (is_Some (d !! key)))
  | JList items =>
      Ok (existsb (fun i => match i with JStr s => String.eqb s key | _ => false end) items)
  | JStr s => Ok (str_contains key s)
  | _ => Raise TypeError
  end.

(** ** The outbound HTTP client (httpx) *)

Module httpx.

(** What [http_client.get(url, params=..., headers=..., timeout=...)]
    is called with. *)
Record Request : Type := {
  url : string;
  params : list (string * json);
  headers : list (string * string);
  timeout : Z
}.

(** The two things the code reads from a response: [status_code] and
    the decoded body, [None] when the body is not JSON ([json()] raises). *)
Record Response : Type := {
  status_code : Z;
  body : option json
}.

(** The network as seen through an [AsyncClient]: each request is
    answered by a response, or by none (timeout, no route: [get] raises). *)
Definition AsyncClient : Type := Request -> option Response.

(** [response.json()] *)
Definition json (response : Response) : result json :=
  match body response with
  | Some data => Ok data
  | None => Raise JSONDecodeError
  end.

End httpx.

(** Computations that issue outbound calls: the log of the requests
    sent so far is threaded through, and survives a raised exception. *)
Definition io (A : Type) : Type := list httpx.Request -> result A * list httpx.Request.

#[export] Instance io_ret : MRet io := fun A a log => (Ok a, log).
#[export] Instance io_bind : MBind io := fun A B k m log =>
  match m log with
  | (Ok a, log') => k a log'
  | (Raise e, log') => (Raise e, log')
  end.

Definition io_raise {A} (e : exn) : io A := fun log => (Raise e, log).

Definition io_lift {A} (r : result A) : io A := fun log => (r, log).

(** [await http_client.get(...)]: the request is sent (and logged), then
    answered. *)
Definition http_get (http_client : httpx.AsyncClient) (rq : httpx.Request) : io httpx.Response :=
  fun log =>
    (match http_client rq with
     | Some response => Ok response
     | None => Raise TransportError
     end, (log ++ [rq])%list).

(** ** appsettings.py *)

Module AppSettings.
Section Settings.
(** The process environment read by [os.getenv]. *)
Context (environ : gmap string string).

Definition getenv (name dflt : string) : string := default dflt (environ !! name).

Definition NOMINATIM_API_BASE_URL : string :=
  getenv "NOMINATIM_API_BASE_URL" "https://nominatim.openstreetmap.org".

Definition NOMINATIM_USER_AGENT : string :=
  getenv "NOMINATIM_USER_AGENT" "GeocodingApp/1.0".
End Settings.

Definition TIMEOUT_SECONDS : Z := 10.
Definition DEFAULT_LIMIT : Z := 10.
End AppSettings.

(** ** clients/nominatimClient.py *)

Module NominatimClient.

Definition error_names : gmap Z string :=
  list_to_map
    [ (400, "Bad Request"); (403, "Forbidden"); (404, "Not Found");
      (429, "Too Many Requests"); (500, "Internal Server Error");
      (503, "Service Unavailable") ].

Definition error_reasons : gmap Z string :=
  list_to_map
    [ (400, "Par" +:+ chr 225 +:+ "metros inv" +:+ chr 225 +:+ "lidos o faltantes");
      (403, "User-Agent requerido o acceso denegado");
      (404, "Recurso no encontrado");
      (429, "L" +:+ chr 237 +:+ "mite de peticiones excedido. Por favor, intenta m"
              +:+ chr 225 +:+ "s tarde");
      (500, "Error interno del servidor");
      (503, "Servicio temporalmente no disponible") ].

(** The [operation] argument is accepted and not used, as in the source. *)
Definition _get_error_message (status_code : Z) (operation : string) : string :=
  let error_name :=
    default ("HTTP " +:+ str_int status_code) (error_names !! status_code) in
  let error_reason :=
    default ("Error HTTP " +:+ str_int status_code) (error_reasons !! status_code) in
  "Error " +:+ str_int status_code +:+ " " +:+ error_name +:+ ": " +:+ error_reason.

Definition unexpected_response_detail : string :=
  "Error 500 Internal Server Error: Respuesta inesperada de la API de Nominatim".

Section Client.
Context (environ : gmap string string).
(** [str(x)] for a [float], as an f-string renders it. *)
Context (float_str : float -> string).

Definition not_found_detail (lat lon : float) : string :=
  "Error 404 Not Found: No se encontr" +:+ chr 243 +:+ " una direcci" +:+ chr 243
    +:+ "n para las coordenadas (" +:+ float_str lat +:+ ", " +:+ float_str lon +:+ ")".

Definition search_request (query : string) (limit : Z) : httpx.Request :=
  {| httpx.url := AppSettings.NOMINATIM_API_BASE_URL environ +:+ "/search";
     httpx.params :=
       [ ("q", JStr query); ("format", JStr "json"); ("limit", JInt limit);
         ("addressdetails", JInt 1); ("extratags", JInt 1); ("namedetails", JInt 1) ];
     httpx.headers := [ ("User-Agent", AppSettings.NOMINATIM_USER_AGENT environ) ];
     httpx.timeout := AppSettings.TIMEOUT_SECONDS |}.

Definition search_address (query : string) (limit : Z)
    (http_client : httpx.AsyncClient) : io (list json) :=
  response ← http_get http_client (search_request query limit);
  if negb (httpx.status_code response =? 200)%Z then
    io_raise (HTTPException (httpx.status_code response)
                (_get_error_message (httpx.status_code response)
                   ("buscar direcci" +:+ chr 243 +:+ "n")))
  else
    data ← io_lift (httpx.json response);
    match data with
    | JList items => mret items
    | _ => io_raise (HTTPException 500 unexpected_response_detail)
    end.

Definition reverse_request (lat lon : float) : httpx.Request :=
  {| httpx.url := AppSettings.NOMINATIM_API_BASE_URL environ +:+ "/reverse";
     httpx.params :=
       [ ("lat", JFloat lat); ("lon", JFloat lon); ("format", JStr "json");
         ("addressdetails", JInt 1); ("extratags", JInt 1); ("namedetails", JInt 1) ];
     httpx.headers := [ ("User-Agent", AppSettings.NOMINATIM_USER_AGENT environ) ];
     httpx.timeout := AppSettings.TIMEOUT_SECONDS |}.

Definition reverse_geocode (lat lon : float)
    (http_client : httpx.AsyncClient) : io json :=
  response ← http_get http_client (reverse_request lat lon);
  if negb (httpx.status_code response =? 200)%Z then
    io_raise (HTTPException (httpx.status_code response)
                (_get_error_message (httpx.status_code response)
                   "realizar reverse geocoding"))
  else
    data ← io_lift (httpx.json response);
    has_error ← io_lift (value_contains "error" data);
    if has_error : bool then
      io_raise (HTTPException 404 (not_found_detail lat lon))
    else mret data.

End Client.
End NominatimClient.

(** ** DTOs/nominatimDtos.py *)

Module AddressDTO.
Record t : Type := {
  house_number : option string;
  road : option string;
  neighbourhood : option string;
  city : option string;
  state : option string;
  postcode : option string;
  country : option string;
  country_code : option string
}.
End AddressDTO.

Module LocationDTO.
Record t : Type := {
  place_id : Z;
  licence : string;
  osm_type : option string;
  osm_id : option Z;
  lat : string;
  lon : string;
  display_name : string;
  class_type : option string;
  type : option string;
  importance : option float;
  address : option AddressDTO.t
}.
End LocationDTO.

Module GeocodeSearchResponseDTO.
Record t : Type := {
  results : list LocationDTO.t;
  total : Z;
  query : string
}.
End GeocodeSearchResponseDTO.

Module ReverseGeocodeResponseDTO.
Record t : Type := {
  place_id : Z;
  licence : string;
  osm_type : option string;
  osm_id : option Z;
  lat : string;
  lon : string;
  display_name : string;
  class_type : option string;
  type : option string;
  address : option AddressDTO.t;
  lat_input : float;
  lon_input : float
}.
End ReverseGeocodeResponseDTO.

(** Construction of a DTO from keyword arguments.  The models are pydantic
    (version 2) models, so the constructor validates every argument against
    the declared type of its field and raises [ValidationError] when one
    does not fit.  A value of the declared type is kept as it is; [None]
    is accepted by an [Optional] field; a [str] field accepts nothing but
    a string among the decoded JSON values.  What an [int] or a [float]
    field makes of a value of another type (pydantic's lax conversions)
    is left open: [lax_int] and [lax_float] stand for it.  [class_type]
    is set by its field name, which [populate_by_name] allows. *)
Module pydantic.
Section Validators.
Context (lax_int : json -> option Z) (lax_float : json -> option float).

Definition of_option {A} (o : option A) : result A :=
  match o with
  | Some a => Ok a
  | None => Raise ValidationError
  end.

Definition validate_str (v : json) : result string :=
  match v with
  | JStr s => Ok s
  | _ => Raise ValidationError
  end.

Definition validate_int (v : json) : result Z :=
  match v with
  | JInt n => Ok n
  | _ => of_option (lax_int v)
  end.

Definition validate_float (v : json) : result float :=
  match v with
  | JFloat x => Ok x
  | _ => of_option (lax_float v)
  end.

(** [Optional[T]] *)
Definition optional {A} (validate : json -> result A) (v : json) : result (option A) :=
  match v with
  | JNull => Ok None
  | _ => a ← validate v; mret (Some a)
  end.

Definition AddressDTO
    (house_number road neighbourhood city state postcode country country_code : json)
    : result AddressDTO.t :=
  house_number ← optional validate_str house_number;
  road ← optional validate_str road;
  neighbourhood ← optional validate_str neighbourhood;
  city ← optional validate_str city;
  state ← optional validate_str state;
  postcode ← optional validate_str postcode;
  country ← optional validate_str country;
  country_code ← optional validate_str country_code;
  mret {| AddressDTO.house_number := house_number;
          AddressDTO.road := road;
          AddressDTO.neighbourhood := neighbourhood;
          AddressDTO.city := city;
          AddressDTO.state := state;
          AddressDTO.postcode := postcode;
          AddressDTO.country := country;
          AddressDTO.country_code := country_code |}.

Definition LocationDTO
    (place_id licence osm_type osm_id lat lon display_name class_type type importance : json)
    (address : option AddressDTO.t) : result LocationDTO.t :=
  place_id ← validate_int place_id;
  licence ← validate_str licence;
  osm_type ← optional validate_str osm_type;
  osm_id ← optional validate_int osm_id;
  lat ← validate_str lat;
  lon ← validate_str lon;
  display_name ← validate_str display_name;
  class_type ← optional validate_str class_type;
  type ← optional validate_str type;
  importance ← optional validate_float importance;
  mret {| LocationDTO.place_id := place_id;
          LocationDTO.licence := licence;
          LocationDTO.osm_type := osm_type;
          LocationDTO.osm_id := osm_id;
          LocationDTO.lat := lat;
          LocationDTO.lon := lon;
          LocationDTO.display_name := display_name;
          LocationDTO.class_type := class_type;
          LocationDTO.type := type;
          LocationDTO.importance := importance;
          LocationDTO.address := address |}.

Definition ReverseGeocodeResponseDTO
    (place_id licence osm_type osm_id lat lon display_name class_type type : json)
    (address : option AddressDTO.t) (lat_input lon_input : float)
    : result ReverseGeocodeResponseDTO.t :=
  place_id ← validate_int place_id;
  licence ← validate_str licence;
  osm_type ← optional validate_str osm_type;
  osm_id ← optional validate_int osm_id;
  lat ← validate_str lat;
  lon ← validate_str lon;
  display_name ← validate_str display_name;
  class_type ← optional validate_str class_type;
  type ← optional validate_str type;
  lat_input ← validate_float (JFloat lat_input);
  lon_input ← validate_float (JFloat lon_input);
  mret {| ReverseGeocodeResponseDTO.place_id := place_id;
          ReverseGeocodeResponseDTO.licence := licence;
          ReverseGeocodeResponseDTO.osm_type := osm_type;
          ReverseGeocodeResponseDTO.osm_id := osm_id;
          ReverseGeocodeResponseDTO.lat := lat;
          ReverseGeocodeResponseDTO.lon := lon;
          ReverseGeocodeResponseDTO.display_name := display_name;
          ReverseGeocodeResponseDTO.class_type := class_type;
          ReverseGeocodeResponseDTO.type := type;
          ReverseGeocodeResponseDTO.address := address;
          ReverseGeocodeResponseDTO.lat_input := lat_input;
          ReverseGeocodeResponseDTO.lon_input := lon_input |}.

(** The arguments are a list of [LocationDTO] instances, an [int] and a
    [str]: validation keeps them. *)
Definition GeocodeSearchResponseDTO
    (results : list LocationDTO.t) (total : Z) (query : string)
    : result GeocodeSearchResponseDTO.t :=
  mret {| GeocodeSearchResponseDTO.results := results;
          GeocodeSearchResponseDTO.total := total;
          GeocodeSearchResponseDTO.query := query |}.

End Validators.
End pydantic.

(** ** services/nominatimservices.py *)

Module NominatimService.

Definition empty_query_detail : string :=
  "Error 400 Bad Request: El t" +:+ chr 233 +:+ "rmino de b" +:+ chr 250
    +:+ "squeda no puede estar vac" +:+ chr 237 +:+ "o".

Definition no_locations_detail (query : string) : string :=
  "Error 404 Not Found: No se encontraron ubicaciones para '" +:+ query +:+ "'".

Definition latitude_detail : string :=
  "Error 400 Bad Request: La latitud debe estar entre -90 y 90".

Definition longitude_detail : string :=
  "Error 400 Bad Request: La longitud debe estar entre -180 y 180".

(** [lo <= x <= hi] on floats. *)
Definition between (lo x hi : float) : bool :=
  PrimFloat.leb lo x && PrimFloat.leb x hi.

Section Service.
Context (environ : gmap string string) (float_str : float -> string).
Context (lax_int : json -> option Z) (lax_float : json -> option float).

Definition _build_address_dto (address_data : json) : result AddressDTO.t :=
  house_number ← value_get address_data "house_number";
  road ← value_get address_data "road";
  neighbourhood ← value_get address_data "neighbourhood";
  city ← value_get address_data "city";
  state ← value_get address_data "state";
  postcode ← value_get address_data "postcode";
  country ← value_get address_data "country";
  country_code ← value_get address_data "country_code";
  pydantic.AddressDTO house_number road neighbourhood city state postcode
    country country_code.

(** The two lines shared by both mappings:
    [address = None; if data.get("address"): address = build(data["address"])]. *)
Definition embedded_address (data : json) : result (option AddressDTO.t) :=
  present ← value_get data "address";
  if truthy present then
    address_data ← value_item data "address";
    address ← _build_address_dto address_data;
    mret (Some address)
  else mret None.

Definition _build_location_dto (location_data : json) : result LocationDTO.t :=
  address ← embedded_address location_data;
  place_id ← value_item location_data "place_id";
  licence ← value_get_default location_data "licence" (JStr "");
  osm_type ← value_get location_data "osm_type";
  osm_id ← value_get location_data "osm_id";
  lat ← value_item location_data "lat";
  lon ← value_item location_data "lon";
  display_name ← value_item location_data "display_name";
  class_type ← value_get location_data "class";
  type ← value_get location_data "type";
  importance ← value_get location_data "importance";
  pydantic.LocationDTO lax_int lax_float place_id licence osm_type osm_id lat lon
    display_name class_type type importance address.

Definition search_address (query : string) (limit : Z)
    (http_client : httpx.AsyncClient) : io GeocodeSearchResponseDTO.t :=
  let query := strip query in
  if negb (truthy (JStr query)) then
    io_raise (HTTPException 400 empty_query_detail)
  else
    search_data ← NominatimClient.search_address environ query limit http_client;
    if negb (truthy (JList search_data)) then
      io_raise (HTTPException 404 (no_locations_detail query))
    else
      locations ← io_lift (mapM _build_location_dto search_data);
      io_lift (pydantic.GeocodeSearchResponseDTO
                 locations (Z.of_nat (length locations)) query).

(** The construction of the response of [reverse_geocode] from the
    record the client returned. *)
Definition build_reverse_dto (reverse_data : json) (lat lon : float)
    : result ReverseGeocodeResponseDTO.t :=
  address ← embedded_address reverse_data;
  place_id ← value_item reverse_data "place_id";
  licence ← value_get_default reverse_data "licence" (JStr "");
  osm_type ← value_get reverse_data "osm_type";
  osm_id ← value_get reverse_data "osm_id";
  lat_ ← value_item reverse_data "lat";
  lon_ ← value_item reverse_data "lon";
  display_name ← value_item reverse_data "display_name";
  class_type ← value_get reverse_data "class";
  type ← value_get reverse_data "type";
  pydantic.ReverseGeocodeResponseDTO lax_int lax_float place_id licence osm_type
    osm_id lat_ lon_ display_name class_type type address lat lon.

Definition reverse_geocode (lat lon : float)
    (http_client : httpx.AsyncClient) : io ReverseGeocodeResponseDTO.t :=
  if negb (between (-90) lat 90) then
    io_raise (HTTPException 400 latitude_detail)
  else if negb (between (-180) lon 180) then
    io_raise (HTTPException 400 longitude_detail)
  else
    reverse_data ← NominatimClient.reverse_geocode environ float_str lat lon http_client;
    io_lift (build_reverse_dto reverse_data lat lon).

End Service.
End NominatimService.

(** ** The web framework (FastAPI), as far as main.py and the controller
    rely on it *)

Module fastapi.

(** A query parameter of a declared numeric type, as it arrives: not
    in the query string, there but not readable as that type, or read. *)
Inductive param (A : Type) : Type :=
| Missing
| Malformed
| Given (a : A).
Arguments Missing {A}.
Arguments Malformed {A}.
Arguments Given {A} a.

(** The kinds of error the declared parameters can produce, and one
    entry of [RequestValidationError.errors()]. *)
Inductive error_type : Type :=
| missing
| int_parsing
| float_parsing
| greater_than_equal
| less_than_equal.

Record error : Type := {
  loc : list string;
  type : error_type
}.

Inductive content : Type :=
| SearchContent (dto : GeocodeSearchResponseDTO.t)
| ReverseContent (dto : ReverseGeocodeResponseDTO.t)
| DetailContent (detail : string)
| PlainContent (text : string)
| NoContent.

Record JSONResponse : Type := {
  status_code : Z;
  body : content
}.

(** [Query(default=dflt, ge=lo, le=hi)] on an [int] parameter. *)
Definition int_query (name : string) (dflt : option Z) (lo hi : Z) (p : param Z)
    : list error + Z :=
  match p with
  | Missing =>
      match dflt with
      | Some n => inr n
      | None => inl [ {| loc := ["query"; name]; type := missing |} ]
      end
  | Malformed => inl [ {| loc := ["query"; name]; type := int_parsing |} ]
  | Given n =>
      if negb (lo <=? n)%Z then
        inl [ {| loc := ["query"; name]; type := greater_than_equal |} ]
      else if negb (n <=? hi)%Z then
        inl [ {| loc := ["query"; name]; type := less_than_equal |} ]
      else inr n
  end.

(** [Query(..., ge=lo, le=hi)] on a required [float] parameter.  The
    upper bound is tested first, so a NaN, which passes neither test, is
    reported against [le]. *)
Definition float_query (name : string) (lo hi : float) (p : param float)
    : list error + float :=
  match p with
  | Missing => inl [ {| loc := ["query"; name]; type := missing |} ]
  | Malformed => inl [ {| loc := ["query"; name]; type := float_parsing |} ]
  | Given x =>
      if negb (PrimFloat.leb x hi) then
        inl [ {| loc := ["query"; name]; type := less_than_equal |} ]
      else if negb (PrimFloat.leb lo x) then
        inl [ {| loc := ["query"; name]; type := greater_than_equal |} ]
      else inr x
  end.

(** [Query(...)] on a required [str] parameter. *)
Definition str_query (name : string) (p : option string) : list error + string :=
  match p with
  | None => inl [ {| loc := ["query"; name]; type := missing |} ]
  | Some s => inr s
  end.

(** The errors of all parameters are reported together. *)
Definition both {A B} (a : list error + A) (b : list error + B) : list error + A * B :=
  match a, b with
  | inr x, inr y => inr (x, y)
  | inl ea, inl eb => inl (ea ++ eb)%list
  | inl ea, inr _ => inl ea
  | inr _, inl eb => inl eb
  end.

(** The statuses that may carry a body: all but those below 200 and
    204, 205 and 304. *)
Definition is_body_allowed_for_status_code (status_code : Z) : bool :=
  negb ((status_code <? 200)%Z || (status_code =? 204)%Z
        || (status_code =? 205)%Z || (status_code =? 304)%Z).

(** What becomes of the outcome of a path operation: the DTO is sent
    with status 200; an [HTTPException] is answered with its own status
    code, and with its detail where that status allows a body; any other
    exception is a plain 500. *)
Definition respond {A} (wrap : A -> content) (r : result A) : JSONResponse :=
  match r with
  | Ok dto => {| status_code := 200; body := wrap dto |}
  | Raise (HTTPException status_code detail) =>
      {| status_code := status_code;
         body := if is_body_allowed_for_status_code status_code
                 then DetailContent detail else NoContent |}
  | Raise _ => {| status_code := 500; body := PlainContent "Internal Server Error" |}
  end.

End fastapi.

(** ** main.py *)

Module main.
Section Handler.
(** The message pydantic attaches to an error of a given kind at a
    given parameter. *)
Context (msg : fastapi.error -> string).

Definition validation_exception_handler (errors : list fastapi.error)
    : fastapi.JSONResponse :=
  let error_messages :=
    map (fun error =>
           String.concat " -> " (fastapi.loc error) +:+ ": " +:+ msg error)
        errors in
  let error_detail :=
    "Error 422 Unprocessable Content: " +:+ String.concat "; " error_messages in
  {| fastapi.status_code := 422; fastapi.body := fastapi.DetailContent error_detail |}.

End Handler.
End main.

(** ** controllers/nominatimcontroller.py *)

Module nominatimcontroller.
Section Controller.
Context (environ : gmap string string) (float_str : float -> string).
Context (lax_int : json -> option Z) (lax_float : json -> option float).
Context (msg : fastapi.error -> string).
(** The network behind the [httpx.AsyncClient()] each request opens. *)
Context (network : httpx.AsyncClient).

(** [GET /api/nominatim/search]: the declared parameters are checked
    first; the body of the path operation runs only when they pass.
    The reply comes with the log of the outbound calls made for it. *)
Definition search_address (q : option string) (limit : fastapi.param Z)
    : fastapi.JSONResponse * list httpx.Request :=
  match fastapi.both (fastapi.str_query "q" q)
                     (fastapi.int_query "limit" (Some 10) 1 50 limit) with
  | inl errors => (main.validation_exception_handler msg errors, [])
  | inr (q, limit) =>
      let (search_response, log) :=
        NominatimService.search_address environ lax_int lax_float q limit network [] in
      (fastapi.respond fastapi.SearchContent search_response, log)
  end.

(** [GET /api/nominatim/reverse] *)
Definition reverse_geocode (lat lon : fastapi.param float)
    : fastapi.JSONResponse * list httpx.Request :=
  match fastapi.both (fastapi.float_query "lat" (-90) 90 lat)
                     (fastapi.float_query "lon" (-180) 180 lon) with
  | inl errors => (main.validation_exception_handler msg errors, [])
  | inr (lat, lon) =>
      let (reverse_response, log) :=
        NominatimService.reverse_geocode environ float_str lax_int lax_float
          lat lon network [] in
      (fastapi.respond fastapi.ReverseContent reverse_response, log)
  end.

End Controller.
End nominatimcontroller.

(** ** Vocabulary of the properties *)

(** The error classes of the service.  [InvalidInput] and [NotFound] are
    the [HTTPException]s the service and the client raise themselves, told
    apart from an upstream status that is passed on by their detail. *)
Definition InvalidInput (e : exn) : Prop :=
  e = HTTPException 400 NominatimService.empty_query_detail
  \/ e = HTTPException 400 NominatimService.latitude_detail
  \/ e = HTTPException 400 NominatimService.longitude_detail.

(** An exception that is not an [HTTPException]: nothing handles it, and
    the framework answers with a plain 500. *)
Definition internal (e : exn) : bool :=
  match e with
  | HTTPException _ _ => false
  | _ => true
  end.

(** The status code a raised exception is answered with. *)
Definition status_of (e : exn) : Z :=
  fastapi.status_code (fastapi.respond fastapi.DetailContent (Raise e)).

Definition is_str (v : json) : bool := match v with JStr _ => true | _ => false end.
Definition is_int (v : json) : bool := match v with JInt _ => true | _ => false end.
Definition is_float (v : json) : bool := match v with JFloat _ => true | _ => false end.

(** A value that is missing ([None]) or of the given type. *)
Definition optional_of (ty : json -> bool) (v : json) : bool :=
  match v with
  | JNull => true
  | _ => ty v
  end.

(** A key that is present with a value of the given type. *)
Definition required_of (ty : json -> bool) (d : gmap string json) (key : string) : bool :=
  match d !! key with
  | Some v => ty v
  | None => false
  end.

Definition address_keys : list string :=
  [ "house_number"; "road"; "neighbourhood"; "city"; "state"; "postcode";
    "country"; "country_code" ].

(** The field of an [AddressDTO] that goes by a given key. *)
Definition address_field (key : string) (a : AddressDTO.t) : option string :=
  if String.eqb key "house_number" then AddressDTO.house_number a
  else if String.eqb key "road" then AddressDTO.road a
  else if String.eqb key "neighbourhood" then AddressDTO.neighbourhood a
  else if String.eqb key "city" then AddressDTO.city a
  else if String.eqb key "state" then AddressDTO.state a
  else if String.eqb key "postcode" then AddressDTO.postcode a
  else if String.eqb key "country" then AddressDTO.country a
  else if String.eqb key "country_code" then AddressDTO.country_code a
  else None.

(** An address sub-object as the provider documents it: an object whose
    named components, where present, are strings. *)
Definition well_formed_address (v : json) : bool :=
  match v with
  | JObj a => forallb (fun key => optional_of is_str (dict_get a key)) address_keys
  | _ => false
  end.

(** A raw record as the provider documents it: an object with an integer
    [place_id], string [lat], [lon] and [display_name], and, where present,
    a string [licence], [osm_type], [class] and [type], an integer [osm_id],
    a float [importance] and a well-formed [address]. *)
Definition well_formed_record (v : json) : bool :=
  match v with
  | JObj d =>
      required_of is_int d "place_id"
      && required_of is_str d "lat"
      && required_of is_str d "lon"
      && required_of is_str d "display_name"
      && is_str (dict_get_default d "licence" (JStr ""))
      && optional_of is_str (dict_get d "osm_type")
      && optional_of is_int (dict_get d "osm_id")
      && optional_of is_str (dict_get d "class")
      && optional_of is_str (dict_get d "type")
      && optional_of is_float (dict_get d "importance")
      && optional_of well_formed_address (dict_get d "address")
  | _ => false
  end.

(** The mapping of a raw record to a Location as the specification words
    it, written without the code's steps: the required fields are read
    directly, every other field is passed through when the record has it
    and is absent otherwise, [class] goes under the name [class_type],
    and an Address, with its eight fields passed through by name, is
    embedded for an address sub-object that is not empty. *)
Definition as_str (v : json) : string := match v with JStr s => s | _ => "" end.
Definition as_int (v : json) : Z := match v with JInt n => n | _ => 0 end.
Definition as_opt_str (v : json) : option string :=
  match v with JStr s => Some s | _ => None end.
Definition as_opt_int (v : json) : option Z :=
  match v with JInt n => Some n | _ => None end.
Definition as_opt_float (v : json) : option float :=
  match v with JFloat x => Some x | _ => None end.

Definition address_of (fields : gmap string json) : AddressDTO.t :=
  {| AddressDTO.house_number := as_opt_str (dict_get fields "house_number");
     AddressDTO.road := as_opt_str (dict_get fields "road");
     AddressDTO.neighbourhood := as_opt_str (dict_get fields "neighbourhood");
     AddressDTO.city := as_opt_str (dict_get fields "city");
     AddressDTO.state := as_opt_str (dict_get fields "state");
     AddressDTO.postcode := as_opt_str (dict_get fields "postcode");
     AddressDTO.country := as_opt_str (dict_get fields "country");
     AddressDTO.country_code := as_opt_str (dict_get fields "country_code") |}.

Definition embedded_address_of (v : json) : option AddressDTO.t :=
  match v with
  | JObj fields => if Nat.eqb (size fields) 0 then None else Some (address_of fields)
  | _ => None
  end.

Definition fields_of (record : json) : gmap string json :=
  match record with
  | JObj d => d
  | _ => ∅
  end.

Definition location_of (record : json) : LocationDTO.t :=
  let d := fields_of record in
  {| LocationDTO.place_id := as_int (dict_get d "place_id");
     LocationDTO.licence := as_str (dict_get d "licence");
     LocationDTO.osm_type := as_opt_str (dict_get d "osm_type");
     LocationDTO.osm_id := as_opt_int (dict_get d "osm_id");
     LocationDTO.lat := as_str (dict_get d "lat");
     LocationDTO.lon := as_str (dict_get d "lon");
     LocationDTO.display_name := as_str (dict_get d "display_name");
     LocationDTO.class_type := as_opt_str (dict_get d "class");
     LocationDTO.type := as_opt_str (dict_get d "type");
     LocationDTO.importance := as_opt_float (dict_get d "importance");
     LocationDTO.address := embedded_address_of (dict_get d "address") |}.

(** How a field of a DTO shows a decoded value: [None] for [null], the
    value itself otherwise. *)
Definition shows_str (o : option string) (v : json) : Prop :=
  v = match o with Some s => JStr s | None => JNull end.
Definition shows_int (o : option Z) (v : json) : Prop :=
  v = match o with Some n => JInt n | None => JNull end.
Definition shows_float (o : option float) (v : json) : Prop :=
  v = match o with Some x => JFloat x | None => JNull end.

(** An embedded address shows an address sub-object when each of its
    eight fields shows the entry of that name. *)
Definition shows_address (o : option AddressDTO.t) (v : json) : Prop :=
  exists a fields, o = Some a /\ v = JObj fields
    /\ forall key, In key address_keys -> shows_str (address_field key a) (dict_get fields key).

(** The keys the mappings subscript: without one of them, no record. *)
Definition required_keys : list string := [ "place_id"; "lat"; "lon"; "display_name" ].

Definition is_obj (v : json) : bool := match v with JObj _ => true | _ => false end.

(** A raw record that contains every optional field of a Location, each
    with a value of the type the data model gives it. *)
Definition has_all_optional (d : gmap string json) : bool :=
  required_of is_str d "osm_type"
  && required_of is_int d "osm_id"
  && required_of is_str d "class"
  && required_of is_str d "type"
  && required_of is_float d "importance"
  && required_of is_obj d "address".

(** The Location repeats the optional fields of the raw record, [class]
    under the name [class_type]. *)
Definition reproduces_optional (d : gmap string json) (l : LocationDTO.t) : Prop :=
  shows_str (LocationDTO.osm_type l) (dict_get d "osm_type")
  /\ shows_int (LocationDTO.osm_id l) (dict_get d "osm_id")
  /\ shows_str (LocationDTO.class_type l) (dict_get d "class")
  /\ shows_str (LocationDTO.type l) (dict_get d "type")
  /\ shows_float (LocationDTO.importance l) (dict_get d "importance")
  /\ shows_address (LocationDTO.address l) (dict_get d "address").

(** A computation that raises nothing but internal exceptions. *)
Definition internal_only {A} (r : result A) : Prop :=
  match r with
  | Ok _ => True
  | Raise e => internal e = true
  end.


(** ** Vocabulary of the further properties *)

(** The limit a search request is served with: 10 when the parameter is
    missing, the parameter itself when it is within the declared bounds;
    none when the request is turned down for it. *)
Definition accepted_limit (p : fastapi.param Z) : option Z :=
  match p with
  | fastapi.Missing => Some 10
  | fastapi.Malformed => None
  | fastapi.Given n => if (1 <=? n)%Z && (n <=? 50)%Z then Some n else None
  end.

(** The coordinate a reverse request is served with. *)
Definition accepted_coordinate (lo hi : float) (p : fastapi.param float) : option float :=
  match p with
  | fastapi.Given x => if NominatimService.between lo x hi then Some x else None
  | _ => None
  end.

(** The status codes the client has a name and a reason for. *)
Definition known_statuses : list Z := [ 400; 403; 404; 429; 500; 503 ].

(** The keys of a raw record that the mapping to a Location looks at. *)
Definition location_keys : list string :=
  [ "address"; "place_id"; "licence"; "osm_type"; "osm_id"; "lat"; "lon";
    "display_name"; "class"; "type"; "importance" ].

Definition is_list (v : json) : bool := match v with JList _ => true | _ => false end.

(** The answer to an exception nothing handles. *)
Definition internal_server_error : fastapi.JSONResponse :=
  {| fastapi.status_code := 500; fastapi.body := fastapi.PlainContent "Internal Server Error" |}.

(** A provider that answers every request with the given status and a
    body that is not JSON, and one that cannot be reached. *)
Definition failing_with (status : Z) : httpx.AsyncClient :=
  fun _ => Some {| httpx.status_code := status; httpx.body := None |}.

Definition unreachable : httpx.AsyncClient := fun _ => None.


(** ** Sample inputs, for the concrete instances at the end *)

(** Validators without lax conversions, and stand-ins for the texts that
    the Python runtime and pydantic supply. *)
Definition strict_int : json -> option Z := fun _ => None.
Definition strict_float : json -> option float := fun _ => None.
Definition sample_float_str : float -> string := fun _ => "x".
Definition sample_msg : fastapi.error -> string := fun _ => "invalid".

(** An address sub-object without [postcode] and [neighbourhood]. *)
Definition sample_address : gmap string json :=
  list_to_map
    [ ("house_number", JStr "1600"); ("road", JStr "Amphitheatre Parkway");
      ("city", JStr "Mountain View"); ("state", JStr "California");
      ("country", JStr "United States"); ("country_code", JStr "us") ].

Definition sample_fields (address : gmap string json) : list (string * json) :=
  [ ("place_id", JInt 123456); ("osm_type", JStr "way"); ("osm_id", JInt 23733659);
    ("lat", JStr "37.4224765"); ("lon", JStr "-122.0842500");
    ("display_name", JStr "1600 Amphitheatre Parkway, Mountain View");
    ("class", JStr "place"); ("type", JStr "house"); ("importance", JFloat 0.5);
    ("address", JObj address) ].

(** A record with every field; the same without a [licence]; the same
    with an empty [address]; the same without [lat]. *)
Definition full_record : gmap string json :=
  list_to_map (("licence", JStr "ODbL") :: sample_fields sample_address).

Definition unlicensed_record : gmap string json :=
  list_to_map (sample_fields sample_address).

Definition empty_address_record : gmap string json :=
  list_to_map (("licence", JStr "ODbL") :: sample_fields ∅).

Definition record_without_lat : gmap string json := delete "lat" full_record.

(** A provider that answers every request with status 200 and the given
    body. *)
Definition answering (data : json) : httpx.AsyncClient :=
  fun _ => Some {| httpx.status_code := 200; httpx.body := Some data |}.

Definition sample_address_dto : AddressDTO.t :=
  {| AddressDTO.house_number := Some "1600";
     AddressDTO.road := Some "Amphitheatre Parkway";
     AddressDTO.neighbourhood := None;
     AddressDTO.city := Some "Mountain View";
     AddressDTO.state := Some "California";
     AddressDTO.postcode := None;
     AddressDTO.country := Some "United States";
     AddressDTO.country_code := Some "us" |}.

(** What the mapping makes of the sample records, up to the licence text
    and the embedded address. *)
Definition sample_location (licence : string) (address : option AddressDTO.t)
    : LocationDTO.t :=
  {| LocationDTO.place_id := 123456;
     LocationDTO.licence := licence;
     LocationDTO.osm_type := Some "way";
     LocationDTO.osm_id := Some 23733659;
     LocationDTO.lat := "37.4224765";
     LocationDTO.lon := "-122.0842500";
     LocationDTO.display_name := "1600 Amphitheatre Parkway, Mountain View";
     LocationDTO.class_type := Some "place";
     LocationDTO.type := Some "house";
     LocationDTO.importance := Some 0.5%float;
     LocationDTO.address := address |}.

Definition sample_reverse (lat lon : float) : ReverseGeocodeResponseDTO.t :=
  {| ReverseGeocodeResponseDTO.place_id := 123456;
     ReverseGeocodeResponseDTO.licence := "ODbL";
     ReverseGeocodeResponseDTO.osm_type := Some "way";
     ReverseGeocodeResponseDTO.osm_id := Some 23733659;
     ReverseGeocodeResponseDTO.lat := "37.4224765";
     ReverseGeocodeResponseDTO.lon := "-122.0842500";
     ReverseGeocodeResponseDTO.display_name := "1600 Amphitheatre Parkway, Mountain View";
     ReverseGeocodeResponseDTO.class_type := Some "place";
     ReverseGeocodeResponseDTO.type := Some "house";
     ReverseGeocodeResponseDTO.address := Some sample_address_dto;
     ReverseGeocodeResponseDTO.lat_input := lat;
     ReverseGeocodeResponseDTO.lon_input := lon |}.

(** Two more records the provider could rank after [full_record]: one
    with nothing but the required fields, one without licence, class and
    importance and with a one-entry address. *)
Definition second_record : gmap string json :=
  list_to_map
    [ ("place_id", JInt 654321); ("lat", JStr "37.4219999"); ("lon", JStr "-122.0840575");
      ("display_name", JStr "Amphitheatre Parkway, Mountain View") ].

Definition third_record : gmap string json :=
  list_to_map
    [ ("place_id", JInt 777); ("osm_type", JStr "node"); ("osm_id", JInt 42);
      ("lat", JStr "37.4"); ("lon", JStr "-122.1");
      ("display_name", JStr "Mountain View"); ("type", JStr "city");
      ("address", JObj {[ "city" := JStr "Mountain View" ]}) ].

Definition second_location : LocationDTO.t :=
  {| LocationDTO.place_id := 654321;
     LocationDTO.licence := "";
     LocationDTO.osm_type := None;
     LocationDTO.osm_id := None;
     LocationDTO.lat := "37.4219999";
     LocationDTO.lon := "-122.0840575";
     LocationDTO.display_name := "Amphitheatre Parkway, Mountain View";
     LocationDTO.class_type := None;
     LocationDTO.type := None;
     LocationDTO.importance := None;
     LocationDTO.address := None |}.

Definition third_location : LocationDTO.t :=
  {| LocationDTO.place_id := 777;
     LocationDTO.licence := "";
     LocationDTO.osm_type := Some "node";
     LocationDTO.osm_id := Some 42;
     LocationDTO.lat := "37.4";
     LocationDTO.lon := "-122.1";
     LocationDTO.display_name := "Mountain View";
     LocationDTO.class_type := None;
     LocationDTO.type := Some "city";
     LocationDTO.importance := None;
     LocationDTO.address :=
       Some {| AddressDTO.house_number := None;
               AddressDTO.road := None;
               AddressDTO.neighbourhood := None;
               AddressDTO.city := Some "Mountain View";
               AddressDTO.state := None;
               AddressDTO.postcode := None;
               AddressDTO.country := None;
               AddressDTO.country_code := None |} |}.

Definition sample_query : string := "  1600 Amphitheatre Parkway ".
Definition sample_lat : float := 37.4224764%float.
Definition sample_lon : float := (-122.0842499)%float.

(** The payload with which the provider reports that it has no address. *)
Definition unable_to_geocode : gmap string json :=
  {[ "error" := JStr "Unable to geocode" ]}.
(** * Properties *)

(** ** Strings *)

Lemma blank_lstrip (s : string) : blank (lstrip s) = blank s.
Proof.
  induction s as [|c s IH]; simpl; [reflexivity|].
  destruct (isspace c) eqn:Hc; simpl; [exact IH|].
  rewrite Hc. reflexivity.
Qed.

Lemma rstrip_empty_iff (s : string) : rstrip s = "" <-> blank s = true.
Proof.
  induction s as [|c s IH]; simpl; [tauto|].
  destruct (rstrip s) eqn:Hr.
  - destruct (isspace c); simpl.
    + split; intros _; [apply IH|]; reflexivity.
    + split; intros H; discriminate H.
  - split; intros H; [discriminate H|].
    apply andb_true_iff in H as [_ H]. apply IH in H. discriminate H.
Qed.

(** The stripped string is empty exactly when the string is empty or
    consists of whitespace only. *)
Lemma strip_empty_iff (s : string) : strip s = "" <-> blank s = true.
Proof.
  unfold strip. rewrite rstrip_empty_iff, blank_lstrip. tauto.
Qed.

Lemma truthy_str (s : string) : truthy (JStr s) = false <-> s = "".
Proof.
  simpl. rewrite negb_false_iff. apply String.eqb_eq.
Qed.

(** ** Exceptions of the mapping *)

Lemma internal_only_bind {A B} (r : result A) (k : A -> result B) :
  internal_only r -> (forall a, internal_only (k a)) -> internal_only (r ≫= k).
Proof.
  destruct r as [a|e]; simpl; intros Hr Hk; [apply Hk | exact Hr].
Qed.

Lemma internal_only_ok {A} (a : A) : internal_only (Ok a).
Proof. exact I. Qed.

Lemma internal_only_ret {A} (a : A) : internal_only (mret a).
Proof. exact I. Qed.

Lemma internal_only_value_get v key : internal_only (value_get v key).
Proof. destruct v; exact eq_refl || exact I. Qed.

Lemma internal_only_value_get_default v key dflt :
  internal_only (value_get_default v key dflt).
Proof. destruct v; exact eq_refl || exact I. Qed.

Lemma internal_only_value_item v key : internal_only (value_item v key).
Proof.
  destruct v; try exact eq_refl. simpl. unfold dict_item.
  destruct (_ !! _); exact eq_refl || exact I.
Qed.

Lemma internal_only_validate_str v : internal_only (pydantic.validate_str v).
Proof. destruct v; exact eq_refl || exact I. Qed.

Lemma internal_only_of_option {A} (o : option A) : internal_only (pydantic.of_option o).
Proof. destruct o; exact eq_refl || exact I. Qed.

Lemma internal_only_validate_int lax v : internal_only (pydantic.validate_int lax v).
Proof. destruct v; try exact I; apply internal_only_of_option. Qed.

Lemma internal_only_validate_float lax v : internal_only (pydantic.validate_float lax v).
Proof. destruct v; try exact I; apply internal_only_of_option. Qed.

Lemma internal_only_optional {A} (validate : json -> result A) v :
  (forall w, internal_only (validate w)) -> internal_only (pydantic.optional validate v).
Proof.
  intros H. destruct v; try exact I; simpl;
    (apply internal_only_bind; [apply H | intros; exact I]).
Qed.

Create HintDb internal discriminated.
#[local] Hint Resolve internal_only_ok internal_only_ret internal_only_value_get
  internal_only_value_get_default internal_only_value_item
  internal_only_validate_str internal_only_validate_int
  internal_only_validate_float internal_only_optional : internal.

Ltac internal_steps :=
  repeat (first [ apply internal_only_bind; [solve [auto with internal] | intros ?]
                | solve [auto with internal] ]).

Lemma internal_only_build_address v : internal_only (NominatimService._build_address_dto v).
Proof. unfold NominatimService._build_address_dto, pydantic.AddressDTO. internal_steps. Qed.

Lemma internal_only_embedded_address v : internal_only (NominatimService.embedded_address v).
Proof.
  unfold NominatimService.embedded_address.
  apply internal_only_bind; [auto with internal|]. intros present.
  destruct (truthy present); [|exact I].
  apply internal_only_bind; [auto with internal|]. intros address_data.
  apply internal_only_bind; [apply internal_only_build_address|]. intros; exact I.
Qed.

Lemma internal_only_build_location lax_int lax_float v :
  internal_only (NominatimService._build_location_dto lax_int lax_float v).
Proof.
  unfold NominatimService._build_location_dto, pydantic.LocationDTO.
  apply internal_only_bind; [apply internal_only_embedded_address | intros ?].
  internal_steps.
Qed.

Lemma internal_only_build_reverse lax_int lax_float v lat lon :
  internal_only (NominatimService.build_reverse_dto lax_int lax_float v lat lon).
Proof.
  unfold NominatimService.build_reverse_dto, pydantic.ReverseGeocodeResponseDTO.
  apply internal_only_bind; [apply internal_only_embedded_address | intros ?].
  internal_steps.
Qed.

Lemma internal_only_mapM {A B} (f : A -> result B) (l : list A) :
  (forall a, internal_only (f a)) -> internal_only (mapM f l).
Proof.
  intros Hf. induction l as [|a l IH]; simpl; [exact I|].
  apply internal_only_bind; [apply Hf | intros b].
  apply internal_only_bind; [exact IH | intros; exact I].
Qed.

(** ** Well-formed values are accepted by the validators *)

Lemma optional_str_ok v :
  optional_of is_str v = true ->
  exists o, pydantic.optional pydantic.validate_str v = Ok o /\ shows_str o v.
Proof.
  destruct v; simpl; try discriminate; intros _.
  - exists None. split; reflexivity.
  - exists (Some s). split; reflexivity.
Qed.

Lemma optional_int_ok lax v :
  optional_of is_int v = true ->
  exists o, pydantic.optional (pydantic.validate_int lax) v = Ok o /\ shows_int o v.
Proof.
  destruct v; simpl; try discriminate; intros _.
  - exists None. split; reflexivity.
  - exists (Some n). split; reflexivity.
Qed.

Lemma optional_float_ok lax v :
  optional_of is_float v = true ->
  exists o, pydantic.optional (pydantic.validate_float lax) v = Ok o /\ shows_float o v.
Proof.
  destruct v; simpl; try discriminate; intros _.
  - exists None. split; reflexivity.
  - exists (Some x). split; reflexivity.
Qed.

Lemma required_of_lookup ty d key :
  required_of ty d key = true -> exists v, d !! key = Some v /\ ty v = true.
Proof.
  unfold required_of. destruct (d !! key) as [v|]; [|discriminate].
  intros H. exists v. split; [reflexivity | exact H].
Qed.

Lemma is_str_inv v : is_str v = true -> exists s, v = JStr s.
Proof. destruct v; try discriminate. intros _. eexists; reflexivity. Qed.

Lemma is_int_inv v : is_int v = true -> exists n, v = JInt n.
Proof. destruct v; try discriminate. intros _. eexists; reflexivity. Qed.

Ltac run_result := unfold mbind, mret, result_bind, result_ret; cbv beta iota.

(** The address built from an object whose named entries are strings
    where present: each field shows the entry of its name. *)
Lemma well_formed_address_builds (fields : gmap string json) :
  well_formed_address (JObj fields) = true ->
  exists a, NominatimService._build_address_dto (JObj fields) = Ok a
    /\ forall key, In key address_keys ->
         shows_str (address_field key a) (dict_get fields key).
Proof.
  unfold well_formed_address, address_keys. cbn [forallb].
  rewrite !andb_true_iff.
  intros (H1 & H2 & H3 & H4 & H5 & H6 & H7 & H8 & _).
  apply optional_str_ok in H1 as (o1 & E1 & S1), H2 as (o2 & E2 & S2),
    H3 as (o3 & E3 & S3), H4 as (o4 & E4 & S4), H5 as (o5 & E5 & S5),
    H6 as (o6 & E6 & S6), H7 as (o7 & E7 & S7), H8 as (o8 & E8 & S8).
  eexists. split.
  - unfold NominatimService._build_address_dto, value_get. run_result.
    unfold pydantic.AddressDTO. rewrite E1, E2, E3, E4, E5, E6, E7, E8.
    run_result. reflexivity.
  - intros key Hkey. cbn [In] in Hkey.
    repeat (destruct Hkey as [<-|Hkey]; [assumption|]). contradiction.
Qed.

(** The embedded address of a record, by its [address] entry. *)
Lemma embedded_address_run (d : gmap string json) :
  NominatimService.embedded_address (JObj d) =
    match d !! "address" with
    | None => Ok None
    | Some v =>
        if truthy v then
          match NominatimService._build_address_dto v with
          | Ok a => Ok (Some a)
          | Raise e => Raise e
          end
        else Ok None
    end.
Proof.
  unfold NominatimService.embedded_address, value_get, value_item, dict_item, dict_get.
  run_result. destruct (d !! "address") as [v|]; [|reflexivity].
  cbn [default from_option id]. destruct (truthy v); reflexivity.
Qed.

Lemma embedded_address_ok (d : gmap string json) :
  optional_of well_formed_address (dict_get d "address") = true ->
  exists o, NominatimService.embedded_address (JObj d) = Ok o.
Proof.
  rewrite embedded_address_run. unfold dict_get.
  destruct (d !! "address") as [v|]; [|eexists; reflexivity].
  cbn [default from_option id]. intros Hv. destruct (truthy v) eqn:Ht; [|eexists; reflexivity].
  destruct v; try discriminate Hv; try discriminate Ht.
  cbn [optional_of] in Hv. apply well_formed_address_builds in Hv as (a & -> & _). eexists; reflexivity.
Qed.

Lemma well_formed_record_builds lax_int lax_float v :
  well_formed_record v = true ->
  exists l, NominatimService._build_location_dto lax_int lax_float v = Ok l.
Proof.
  destruct v as [| | | | | |d]; try discriminate. unfold well_formed_record.
  rewrite !andb_true_iff.
  intros ((((((((((Hid & Hlat) & Hlon) & Hname) & Hlic) & Hosm) & Hoid) & Hclass) & Htype)
            & Himp) & Haddr).
  apply required_of_lookup in Hid as (v1 & L1 & T1), Hlat as (v2 & L2 & T2),
    Hlon as (v3 & L3 & T3), Hname as (v4 & L4 & T4).
  apply is_int_inv in T1 as (n & ->).
  apply is_str_inv in T2 as (s2 & ->), T3 as (s3 & ->), T4 as (s4 & ->),
    Hlic as (s5 & E5).
  apply optional_str_ok in Hosm as (o1 & E1 & _), Hclass as (o3 & E3 & _),
    Htype as (o4 & E4 & _).
  apply (optional_int_ok lax_int) in Hoid as (o2 & E2 & _).
  apply (optional_float_ok lax_float) in Himp as (o6 & E6 & _).
  apply embedded_address_ok in Haddr as (oa & Ea).
  eexists.
  unfold NominatimService._build_location_dto. rewrite Ea.
  unfold value_get, value_get_default, value_item, dict_item. rewrite L1, L2, L3, L4, E5.
  run_result. unfold pydantic.LocationDTO. rewrite E1, E2, E3, E4, E6.
  cbn [pydantic.validate_int pydantic.validate_str]. run_result. reflexivity.
Qed.

(** *** The code's mapping against the specification's *)

Lemma shows_str_as_opt o v : shows_str o v -> as_opt_str v = o.
Proof. unfold shows_str. intros ->. destruct o; reflexivity. Qed.

Lemma shows_int_as_opt o v : shows_int o v -> as_opt_int v = o.
Proof. unfold shows_int. intros ->. destruct o; reflexivity. Qed.

Lemma shows_float_as_opt o v : shows_float o v -> as_opt_float v = o.
Proof. unfold shows_float. intros ->. destruct o; reflexivity. Qed.

Lemma well_formed_address_maps (fields : gmap string json) :
  well_formed_address (JObj fields) = true ->
  NominatimService._build_address_dto (JObj fields) = Ok (address_of fields).
Proof.
  intros Hwf. destruct (well_formed_address_builds fields Hwf) as (a & -> & Hshow).
  f_equal. destruct a as [f1 f2 f3 f4 f5 f6 f7 f8]. unfold address_of.
  assert (Hfield : forall key, In key address_keys ->
            as_opt_str (dict_get fields key)
            = address_field key
                {| AddressDTO.house_number := f1; AddressDTO.road := f2;
                   AddressDTO.neighbourhood := f3; AddressDTO.city := f4;
                   AddressDTO.state := f5; AddressDTO.postcode := f6;
                   AddressDTO.country := f7; AddressDTO.country_code := f8 |}).
  { intros key Hkey. apply shows_str_as_opt, Hshow, Hkey. }
  rewrite !Hfield by (cbn; repeat (first [left; reflexivity | right])).
  reflexivity.
Qed.

Lemma embedded_address_maps (d : gmap string json) :
  optional_of well_formed_address (dict_get d "address") = true ->
  NominatimService.embedded_address (JObj d)
  = Ok (embedded_address_of (dict_get d "address")).
Proof.
  rewrite embedded_address_run. unfold dict_get.
  destruct (d !! "address") as [v|]; [|reflexivity].
  cbn [default from_option id]. intros Hv.
  destruct v as [| | | | | |fields]; try discriminate Hv; [reflexivity|].
  cbn [optional_of] in Hv. cbn [truthy embedded_address_of].
  destruct (Nat.eqb (size fields) 0); [reflexivity|]. cbn [negb].
  rewrite (well_formed_address_maps fields Hv). reflexivity.
Qed.

Lemma dict_get_some (d : gmap string json) key v : d !! key = Some v -> dict_get d key = v.
Proof. unfold dict_get. intros ->. reflexivity. Qed.

Lemma licence_as_str (d : gmap string json) :
  is_str (dict_get_default d "licence" (JStr "")) = true ->
  pydantic.validate_str (dict_get_default d "licence" (JStr ""))
  = Ok (as_str (dict_get d "licence")).
Proof.
  unfold dict_get_default, dict_get. destruct (d !! "licence") as [v|]; cbn.
  - destruct v; try discriminate. reflexivity.
  - reflexivity.
Qed.

(** On a well-formed record the code builds the Location the
    specification describes. *)
Lemma well_formed_record_maps lax_int lax_float v :
  well_formed_record v = true ->
  NominatimService._build_location_dto lax_int lax_float v = Ok (location_of v).
Proof.
  destruct v as [| | | | | |d]; try discriminate. unfold well_formed_record.
  rewrite !andb_true_iff.
  intros ((((((((((Hid & Hlat) & Hlon) & Hname) & Hlic) & Hosm) & Hoid) & Hclass) & Htype)
            & Himp) & Haddr).
  apply required_of_lookup in Hid as (v1 & L1 & T1), Hlat as (v2 & L2 & T2),
    Hlon as (v3 & L3 & T3), Hname as (v4 & L4 & T4).
  apply is_int_inv in T1 as (n & ->).
  apply is_str_inv in T2 as (s2 & ->), T3 as (s3 & ->), T4 as (s4 & ->).
  apply licence_as_str in Hlic.
  apply optional_str_ok in Hosm as (o1 & E1 & S1), Hclass as (o3 & E3 & S3),
    Htype as (o4 & E4 & S4).
  apply (optional_int_ok lax_int) in Hoid as (o2 & E2 & S2).
  apply (optional_float_ok lax_float) in Himp as (o6 & E6 & S6).
  apply shows_str_as_opt in S1, S3, S4.
  apply shows_int_as_opt in S2. apply shows_float_as_opt in S6.
  apply embedded_address_maps in Haddr.
  unfold NominatimService._build_location_dto. rewrite Haddr.
  unfold value_get, value_get_default, value_item, dict_item. rewrite L1, L2, L3, L4.
  run_result. unfold pydantic.LocationDTO. rewrite Hlic, E1, E2, E3, E4, E6.
  cbn [pydantic.validate_int pydantic.validate_str]. run_result.
  unfold location_of, fields_of. rewrite S1, S2, S3, S4, S6.
  rewrite (dict_get_some _ _ _ L1), (dict_get_some _ _ _ L2), (dict_get_some _ _ _ L3),
    (dict_get_some _ _ _ L4). reflexivity.
Qed.

Lemma mapM_result_map {A B} (f : A -> result B) (g : A -> B) (l : list A) :
  (forall a, In a l -> f a = Ok (g a)) -> mapM f l = Ok (map g l).
Proof.
  induction l as [|a l IH]; intros Hf; [reflexivity|].
  cbn [mapM map]. rewrite (Hf a) by (left; reflexivity).
  rewrite IH by (intros x Hx; apply Hf; right; exact Hx). reflexivity.
Qed.

Lemma mapM_result_ok {A B} (f : A -> result B) (l : list A) :
  (forall a, In a l -> exists b, f a = Ok b) ->
  exists bs, mapM f l = Ok bs /\ Forall2 (fun a b => f a = Ok b) l bs.
Proof.
  induction l as [|a l IH]; intros Hf.
  - exists []. split; [reflexivity | constructor].
  - destruct (Hf a) as (b & Eb); [left; reflexivity|].
    destruct IH as (bs & Ebs & Hall); [intros x Hx; apply Hf; right; exact Hx|].
    exists (b :: bs). split; [|constructor; assumption].
    cbn [mapM]. rewrite Eb, Ebs. reflexivity.
Qed.

(** [mapM] maps the records one by one, in their order. *)
Lemma mapM_result_inv {A B} (f : A -> result B) (l : list A) (bs : list B) :
  mapM f l = Ok bs -> Forall2 (fun a b => f a = Ok b) l bs.
Proof.
  revert bs. induction l as [|a l IH]; intros bs; cbn [mapM].
  - intros H. injection H as <-. constructor.
  - run_result. destruct (f a) as [b|] eqn:Eb; [|discriminate].
    destruct (mapM f l) as [bs'|] eqn:Ebs; [|discriminate].
    intros H. injection H as <-. constructor; [exact Eb | apply IH; reflexivity].
Qed.

(** ** What a built DTO says about the values it was built from *)

Lemma bind_ok_inv {A B} (r : result A) (k : A -> result B) (b : B) :
  r ≫= k = Ok b -> exists a, r = Ok a /\ k a = Ok b.
Proof.
  destruct r as [a|e]; [|discriminate]. intros H. exists a. split; [reflexivity | exact H].
Qed.

Ltac invert_binds H :=
  repeat (let a := fresh "a" in let E := fresh "E" in
          apply bind_ok_inv in H as (a & E & H)).

Lemma optional_str_inv v o :
  pydantic.optional pydantic.validate_str v = Ok o -> shows_str o v.
Proof.
  destruct v; simpl; try discriminate; intros H; injection H as <-; reflexivity.
Qed.

Lemma address_dto_inv v1 v2 v3 v4 v5 v6 v7 v8 a :
  pydantic.AddressDTO v1 v2 v3 v4 v5 v6 v7 v8 = Ok a ->
  shows_str (AddressDTO.house_number a) v1 /\ shows_str (AddressDTO.road a) v2
  /\ shows_str (AddressDTO.neighbourhood a) v3 /\ shows_str (AddressDTO.city a) v4
  /\ shows_str (AddressDTO.state a) v5 /\ shows_str (AddressDTO.postcode a) v6
  /\ shows_str (AddressDTO.country a) v7 /\ shows_str (AddressDTO.country_code a) v8.
Proof.
  unfold pydantic.AddressDTO. intros H. invert_binds H. injection H as <-.
  cbn [AddressDTO.house_number AddressDTO.road AddressDTO.neighbourhood AddressDTO.city
       AddressDTO.state AddressDTO.postcode AddressDTO.country AddressDTO.country_code].
  repeat split; apply optional_str_inv; assumption.
Qed.

(** Each field of a built address shows the entry of its name. *)
Lemma build_address_inv v a :
  NominatimService._build_address_dto v = Ok a ->
  exists fields, v = JObj fields
    /\ forall key, In key address_keys ->
         shows_str (address_field key a) (dict_get fields key).
Proof.
  destruct v as [| | | | | |fields]; try discriminate.
  unfold NominatimService._build_address_dto, value_get. run_result.
  intros H. apply address_dto_inv in H as (H1 & H2 & H3 & H4 & H5 & H6 & H7 & H8).
  exists fields. split; [reflexivity|].
  intros key Hkey. cbn [In address_keys] in Hkey.
  repeat (destruct Hkey as [<-|Hkey]; [assumption|]). contradiction.
Qed.

(** An address is embedded only for a non-empty address sub-object, and
    then it is the one built from that sub-object. *)
Lemma embedded_address_some d a :
  NominatimService.embedded_address (JObj d) = Ok (Some a) ->
  exists fields, d !! "address" = Some (JObj fields) /\ fields <> ∅
    /\ NominatimService._build_address_dto (JObj fields) = Ok a.
Proof.
  rewrite embedded_address_run.
  destruct (d !! "address") as [v|]; [|discriminate].
  destruct (truthy v) eqn:Ht; [|discriminate].
  destruct (NominatimService._build_address_dto v) as [a'|] eqn:Hb; [|discriminate].
  intros H. injection H as ->.
  destruct (build_address_inv _ _ Hb) as (fields & -> & _).
  exists fields. repeat split; [|exact Hb].
  intros ->. discriminate Ht.
Qed.

Lemma embedded_address_empty (d : gmap string json) :
  d !! "address" = Some (JObj ∅) ->
  NominatimService.embedded_address (JObj d) = Ok None.
Proof. intros H. rewrite embedded_address_run, H. reflexivity. Qed.

Section Inversion.
Context (lax_int : json -> option Z) (lax_float : json -> option float).

Lemma optional_int_inv v o :
  is_int v = true -> pydantic.optional (pydantic.validate_int lax_int) v = Ok o ->
  shows_int o v.
Proof.
  destruct v; simpl; try discriminate; intros _ H; injection H as <-; reflexivity.
Qed.

Lemma optional_float_inv v o :
  is_float v = true -> pydantic.optional (pydantic.validate_float lax_float) v = Ok o ->
  shows_float o v.
Proof.
  destruct v; simpl; try discriminate; intros _ H; injection H as <-; reflexivity.
Qed.

(** A location is built only from an object that has the four keys the
    mapping subscripts; its fields are the validated entries. *)
Lemma build_location_inv v l :
  NominatimService._build_location_dto lax_int lax_float v = Ok l ->
  exists d, v = JObj d
    /\ is_Some (d !! "place_id") /\ is_Some (d !! "lat")
    /\ is_Some (d !! "lon") /\ is_Some (d !! "display_name")
    /\ NominatimService.embedded_address (JObj d) = Ok (LocationDTO.address l)
    /\ pydantic.validate_str (dict_get_default d "licence" (JStr ""))
       = Ok (LocationDTO.licence l)
    /\ pydantic.optional pydantic.validate_str (dict_get d "osm_type")
       = Ok (LocationDTO.osm_type l)
    /\ pydantic.optional (pydantic.validate_int lax_int) (dict_get d "osm_id")
       = Ok (LocationDTO.osm_id l)
    /\ pydantic.optional pydantic.validate_str (dict_get d "class")
       = Ok (LocationDTO.class_type l)
    /\ pydantic.optional pydantic.validate_str (dict_get d "type")
       = Ok (LocationDTO.type l)
    /\ pydantic.optional (pydantic.validate_float lax_float) (dict_get d "importance")
       = Ok (LocationDTO.importance l).
Proof.
  unfold NominatimService._build_location_dto. intros H.
  apply bind_ok_inv in H as (address & Ea & H).
  destruct v as [| | | | | |d]; try discriminate Ea.
  unfold value_item, value_get, value_get_default, dict_item in H.
  destruct (d !! "place_id") as [v1|] eqn:L1; [|discriminate H].
  destruct (d !! "lat") as [v2|] eqn:L2; [|discriminate H].
  destruct (d !! "lon") as [v3|] eqn:L3; [|discriminate H].
  destruct (d !! "display_name") as [v4|] eqn:L4; [|discriminate H].
  revert H. run_result. unfold pydantic.LocationDTO. intros H.
  invert_binds H. injection H as <-.
  exists d. cbn. repeat split; eauto.
Qed.

(** The same for the response of the reverse lookup. *)
Lemma build_reverse_inv v lat lon r :
  NominatimService.build_reverse_dto lax_int lax_float v lat lon = Ok r ->
  exists d, v = JObj d
    /\ is_Some (d !! "place_id") /\ is_Some (d !! "lat")
    /\ is_Some (d !! "lon") /\ is_Some (d !! "display_name")
    /\ NominatimService.embedded_address (JObj d)
       = Ok (ReverseGeocodeResponseDTO.address r)
    /\ pydantic.validate_str (dict_get_default d "licence" (JStr ""))
       = Ok (ReverseGeocodeResponseDTO.licence r)
    /\ ReverseGeocodeResponseDTO.lat_input r = lat
    /\ ReverseGeocodeResponseDTO.lon_input r = lon.
Proof.
  unfold NominatimService.build_reverse_dto. intros H.
  apply bind_ok_inv in H as (address & Ea & H).
  destruct v as [| | | | | |d]; try discriminate Ea.
  unfold value_item, value_get, value_get_default, dict_item in H.
  destruct (d !! "place_id") as [v1|] eqn:L1; [|discriminate H].
  destruct (d !! "lat") as [v2|] eqn:L2; [|discriminate H].
  destruct (d !! "lon") as [v3|] eqn:L3; [|discriminate H].
  destruct (d !! "display_name") as [v4|] eqn:L4; [|discriminate H].
  revert H. run_result. unfold pydantic.ReverseGeocodeResponseDTO. intros H.
  invert_binds H. injection H as <-.
  repeat match goal with
         | E : pydantic.validate_float _ (JFloat _) = Ok _ |- _ =>
             cbn in E; injection E as <-
         end.
  exists d. cbn.
  repeat split; eauto.
Qed.

End Inversion.

(** ** Running the client and the service *)

Section Operations.
Context (environ : gmap string string) (float_str : float -> string).
Context (lax_int : json -> option Z) (lax_float : json -> option float).
Context (msg : fastapi.error -> string).

#[local] Abbreviation client_search := (NominatimClient.search_address environ).
#[local] Abbreviation client_reverse := (NominatimClient.reverse_geocode environ float_str).
#[local] Abbreviation build_location := (NominatimService._build_location_dto lax_int lax_float).
#[local] Abbreviation build_reverse := (NominatimService.build_reverse_dto lax_int lax_float).
#[local] Abbreviation service_search := (NominatimService.search_address environ lax_int lax_float).
#[local] Abbreviation service_reverse :=
  (NominatimService.reverse_geocode environ float_str lax_int lax_float).

(** The search of the service, step by step. *)
Lemma service_search_run q limit http log :
  service_search q limit http log =
    if String.eqb (strip q) "" then
      (Raise (HTTPException 400 NominatimService.empty_query_detail), log)
    else
      match client_search (strip q) limit http log with
      | (Raise e, log') => (Raise e, log')
      | (Ok [], log') =>
          (Raise (HTTPException 404 (NominatimService.no_locations_detail (strip q))), log')
      | (Ok search_data, log') =>
          match mapM build_location search_data with
          | Raise e => (Raise e, log')
          | Ok locations =>
              (Ok {| GeocodeSearchResponseDTO.results := locations;
                     GeocodeSearchResponseDTO.total := Z.of_nat (length locations);
                     GeocodeSearchResponseDTO.query := strip q |}, log')
          end
      end.
Proof.
  unfold NominatimService.search_address. cbv zeta. unfold truthy at 1. rewrite negb_involutive.
  destruct (String.eqb (strip q) ""); [reflexivity|].
  unfold mbind at 1, io_bind at 1.
  destruct (client_search (strip q) limit http log) as [[data|e] log']; [|reflexivity].
  destruct data as [|r data]; [reflexivity|].
  cbn [truthy length Nat.eqb negb].
  unfold mbind at 1, io_bind at 1, io_lift at 1.
  destruct (mapM build_location (r :: data)); reflexivity.
Qed.

(** The reverse lookup of the service, step by step. *)
Lemma service_reverse_run lat lon http log :
  service_reverse lat lon http log =
    if negb (NominatimService.between (-90) lat 90) then
      (Raise (HTTPException 400 NominatimService.latitude_detail), log)
    else if negb (NominatimService.between (-180) lon 180) then
      (Raise (HTTPException 400 NominatimService.longitude_detail), log)
    else
      match client_reverse lat lon http log with
      | (Raise e, log') => (Raise e, log')
      | (Ok reverse_data, log') => (build_reverse reverse_data lat lon, log')
      end.
Proof.
  unfold NominatimService.reverse_geocode.
  destruct (negb (NominatimService.between (-90) lat 90)); [reflexivity|].
  destruct (negb (NominatimService.between (-180) lon 180)); [reflexivity|].
  unfold mbind, io_bind, io_lift.
  destruct (client_reverse lat lon http log) as [[data|e] log']; reflexivity.
Qed.

(** The search of the client, by the answer of the network. *)
Lemma client_search_run q limit http log :
  client_search q limit http log =
    (match http (NominatimClient.search_request environ q limit) with
     | None => Raise TransportError
     | Some response =>
         if (httpx.status_code response =? 200)%Z then
           match httpx.body response with
           | None => Raise JSONDecodeError
           | Some (JList items) => Ok items
           | Some _ => Raise (HTTPException 500 NominatimClient.unexpected_response_detail)
           end
         else
           Raise (HTTPException (httpx.status_code response)
                    (NominatimClient._get_error_message (httpx.status_code response)
                       ("buscar direcci" +:+ chr 243 +:+ "n")))
     end, (log ++ [NominatimClient.search_request environ q limit])%list).
Proof.
  unfold NominatimClient.search_address, mbind, io_bind, http_get, io_lift, io_raise,
    httpx.json.
  destruct (http _) as [response|]; [|reflexivity].
  destruct (httpx.status_code response =? 200)%Z; [|reflexivity].
  destruct (httpx.body response) as [[]|]; reflexivity.
Qed.

(** The reverse lookup of the client, by the answer of the network. *)
Lemma client_reverse_run lat lon http log :
  client_reverse lat lon http log =
    (match http (NominatimClient.reverse_request environ lat lon) with
     | None => Raise TransportError
     | Some response =>
         if (httpx.status_code response =? 200)%Z then
           match httpx.body response with
           | None => Raise JSONDecodeError
           | Some data =>
               match value_contains "error" data with
               | Raise e => Raise e
               | Ok true =>
                   Raise (HTTPException 404
                            (NominatimClient.not_found_detail float_str lat lon))
               | Ok false => Ok data
               end
           end
         else
           Raise (HTTPException (httpx.status_code response)
                    (NominatimClient._get_error_message (httpx.status_code response)
                       "realizar reverse geocoding"))
     end, (log ++ [NominatimClient.reverse_request environ lat lon])%list).
Proof.
  unfold NominatimClient.reverse_geocode, mbind, io_bind, http_get, io_lift, io_raise,
    httpx.json.
  destruct (http _) as [response|]; [|reflexivity].
  destruct (httpx.status_code response =? 200)%Z; [|reflexivity].
  destruct (httpx.body response) as [data|]; [|reflexivity].
  destruct (value_contains "error" data) as [[]|]; reflexivity.
Qed.

(** *** Which exceptions are which *)

Lemma internal_not_invalid e : internal e = true -> ~ InvalidInput e.
Proof. intros He [H|[H|H]]; subst e; discriminate He. Qed.

Lemma upstream_status_not_invalid code operation :
  ~ InvalidInput (HTTPException code (NominatimClient._get_error_message code operation)).
Proof.
  intros [H|[H|H]]; injection H as Hcode Hdetail; subst code;
    vm_compute in Hdetail; discriminate Hdetail.
Qed.

Lemma client_search_not_invalid q limit http log e log' :
  client_search q limit http log = (Raise e, log') -> ~ InvalidInput e.
Proof.
  rewrite client_search_run. intros H. injection H as H _.
  destruct (http _) as [response|].
  - destruct (httpx.status_code response =? 200)%Z.
    + destruct (httpx.body response) as [[]|]; try discriminate H;
        injection H as <-; intros [H|[H|H]]; discriminate H.
    + injection H as <-. apply upstream_status_not_invalid.
  - injection H as <-. intros [H|[H|H]]; discriminate H.
Qed.

Lemma client_reverse_not_invalid lat lon http log e log' :
  client_reverse lat lon http log = (Raise e, log') -> ~ InvalidInput e.
Proof.
  rewrite client_reverse_run. intros H. injection H as H _.
  destruct (http _) as [response|].
  - destruct (httpx.status_code response =? 200)%Z.
    + destruct (httpx.body response) as [data|].
      * destruct data; simpl in H;
          repeat match type of H with
                 | context [if ?b then _ else _] => destruct b
                 end;
          try discriminate H; injection H as <-; intros [H|[H|H]]; discriminate H.
      * injection H as <-. intros [H|[H|H]]; discriminate H.
    + injection H as <-. apply upstream_status_not_invalid.
  - injection H as <-. intros [H|[H|H]]; discriminate H.
Qed.

(** C5.  [InvalidInput] (status 400) is raised exactly for a search query
    that is empty or whitespace-only, and for a reverse lookup whose
    latitude is outside [-90, 90] or whose longitude is outside
    [-180, 180]; in each of these cases the log of outbound calls is
    returned as it was: nothing was sent to the provider.  For any other
    input, whatever the operation raises is not an [InvalidInput]. *)
Theorem invalid_input_exactly_and_before_any_call q limit lat lon http log :
  (blank q = true ->
     service_search q limit http log =
       (Raise (HTTPException 400 NominatimService.empty_query_detail), log))
  /\ (blank q = false ->
        forall e log', service_search q limit http log = (Raise e, log') ->
                       ~ InvalidInput e)
  /\ (NominatimService.between (-90) lat 90 = false ->
        service_reverse lat lon http log =
          (Raise (HTTPException 400 NominatimService.latitude_detail), log))
  /\ (NominatimService.between (-90) lat 90 = true ->
      NominatimService.between (-180) lon 180 = false ->
        service_reverse lat lon http log =
          (Raise (HTTPException 400 NominatimService.longitude_detail), log))
  /\ (NominatimService.between (-90) lat 90 = true ->
      NominatimService.between (-180) lon 180 = true ->
        forall e log', service_reverse lat lon http log = (Raise e, log') ->
                       ~ InvalidInput e).
Proof.
  rewrite service_search_run, service_reverse_run.
  repeat split.
  - intros Hq. apply strip_empty_iff in Hq. rewrite Hq. reflexivity.
  - intros Hq e log' H.
    destruct (String.eqb (strip q) "") eqn:Hs.
    + apply String.eqb_eq, strip_empty_iff in Hs. congruence.
    + destruct (client_search (strip q) limit http log) as [[data|e0] log0] eqn:Hc.
      * destruct data as [|r data].
        -- injection H as <- _. intros [H|[H|H]]; discriminate H.
        -- pose proof (internal_only_mapM build_location (r :: data)
                         (internal_only_build_location lax_int lax_float)) as Hm.
           destruct (mapM build_location (r :: data)); [discriminate H|].
           injection H as <- _. apply internal_not_invalid, Hm.
      * injection H as <- _. eapply client_search_not_invalid, Hc.
  - intros ->. reflexivity.
  - intros -> ->. reflexivity.
  - intros -> -> e log' H. simpl in H.
    destruct (client_reverse lat lon http log) as [[data|e0] log0] eqn:Hc.
    + pose proof (internal_only_build_reverse lax_int lax_float data lat lon) as Hb.
      destruct (build_reverse data lat lon); [discriminate H|].
      injection H as <- _. apply internal_not_invalid, Hb.
    + injection H as <- _. eapply client_reverse_not_invalid, Hc.
Qed.

(** C1.  For a query that is not blank and a limit between 1 and 50, if
    the upstream client returns [N >= 1] well-formed raw records, the
    search returns a result whose [total] is [N], whose [results] are the
    Locations the specification's mapping gives for the records, one for
    each record and in the provider's order, and whose [query] is the
    stripped input. *)
Theorem search_maps_every_record_in_order q limit http log records log' :
  blank q = false ->
  (1 <= limit <= 50)%Z ->
  client_search (strip q) limit http log = (Ok records, log') ->
  (1 <= length records)%nat ->
  forallb well_formed_record records = true ->
  service_search q limit http log =
    (Ok {| GeocodeSearchResponseDTO.results := map location_of records;
           GeocodeSearchResponseDTO.total := Z.of_nat (length records);
           GeocodeSearchResponseDTO.query := strip q |}, log').
Proof.
  intros Hq _ Hclient Hlen Hwf.
  assert (Hmap : mapM build_location records = Ok (map location_of records)).
  { apply mapM_result_map. intros r Hr. apply well_formed_record_maps.
    rewrite forallb_forall in Hwf. apply Hwf, Hr. }
  rewrite service_search_run, Hclient.
  destruct (String.eqb (strip q) "") eqn:Hs.
  { apply String.eqb_eq, strip_empty_iff in Hs. congruence. }
  rewrite Hmap, length_map.
  destruct records; [simpl in Hlen; lia | reflexivity].
Qed.

(** C7.  A search in which the upstream client returns the empty
    sequence fails with [NotFound] (status 404), and no search result is
    ever produced with an empty [results] sequence: whenever the search
    returns a result, its [results] are not empty (and [total] is their
    number). *)
Theorem search_result_is_never_empty q limit http log :
  (forall log',
      blank q = false ->
      client_search (strip q) limit http log = (Ok [], log') ->
      service_search q limit http log =
        (Raise (HTTPException 404 (NominatimService.no_locations_detail (strip q))), log'))
  /\ (forall dto log',
        service_search q limit http log = (Ok dto, log') ->
        GeocodeSearchResponseDTO.results dto <> []
        /\ GeocodeSearchResponseDTO.total dto
           = Z.of_nat (length (GeocodeSearchResponseDTO.results dto))).
Proof.
  rewrite service_search_run. split.
  - intros log' Hq ->.
    destruct (String.eqb (strip q) "") eqn:Hs; [|reflexivity].
    apply String.eqb_eq, strip_empty_iff in Hs. congruence.
  - intros dto log' H.
    destruct (String.eqb (strip q) ""); [discriminate H|].
    destruct (client_search (strip q) limit http log) as [[data|e] log0];
      [|discriminate H].
    destruct data as [|r data]; [discriminate H|].
    destruct (mapM build_location (r :: data)) as [locations|] eqn:Hmap;
      [|discriminate H].
    injection H as <- _. cbn [GeocodeSearchResponseDTO.results
                               GeocodeSearchResponseDTO.total].
    split; [|reflexivity].
    apply mapM_result_inv, Forall2_length in Hmap.
    destruct locations; [discriminate Hmap | discriminate].
Qed.

(** C6.  When the provider answers a reverse lookup with status 200 and
    an object, the payload decides: with an ["error"] entry the client
    raises [NotFound] (status 404), which the service passes on and the
    endpoint answers with 404; without one the client returns the object. *)
Theorem reverse_error_payload_is_not_found lat lon http log d :
  http (NominatimClient.reverse_request environ lat lon)
    = Some {| httpx.status_code := 200; httpx.body := Some (JObj d) |} ->
  (is_Some (d !! "error") ->
     client_reverse lat lon http log =
       (Raise (HTTPException 404 (NominatimClient.not_found_detail float_str lat lon)),
        (log ++ [NominatimClient.reverse_request environ lat lon])%list)
     /\ (NominatimService.between (-90) lat 90 = true ->
         NominatimService.between (-180) lon 180 = true ->
         service_reverse lat lon http log =
           (Raise (HTTPException 404 (NominatimClient.not_found_detail float_str lat lon)),
            (log ++ [NominatimClient.reverse_request environ lat lon])%list)
         /\ fastapi.status_code
              (fst (nominatimcontroller.reverse_geocode environ float_str lax_int
                      lax_float msg http (fastapi.Given lat) (fastapi.Given lon)))
            = 404))
  /\ (d !! "error" = None ->
        client_reverse lat lon http log =
          (Ok (JObj d), (log ++ [NominatimClient.reverse_request environ lat lon])%list)).
Proof.
  intros Hhttp.
  assert (Hclient : forall log0, is_Some (d !! "error") ->
            client_reverse lat lon http log0 =
              (Raise (HTTPException 404
                        (NominatimClient.not_found_detail float_str lat lon)),
               (log0 ++ [NominatimClient.reverse_request environ lat lon])%list)).
  { intros log0 Herr. rewrite client_reverse_run, Hhttp. cbn.
    rewrite bool_decide_eq_true_2 by exact Herr. reflexivity. }
  split.
  - intros Herr. split; [apply Hclient, Herr|].
    intros Hlat Hlon. split.
    + rewrite service_reverse_run, Hlat, Hlon. cbn [negb].
      rewrite (Hclient log Herr). reflexivity.
    + unfold nominatimcontroller.reverse_geocode, fastapi.float_query.
      pose proof Hlat as Hlat'. pose proof Hlon as Hlon'.
      unfold NominatimService.between in Hlat', Hlon'.
      apply andb_true_iff in Hlat' as [-> ->], Hlon' as [-> ->]. cbn [negb fastapi.both].
      rewrite service_reverse_run, Hlat, Hlon, (Hclient [] Herr). reflexivity.
  - intros Herr. rewrite client_reverse_run, Hhttp. cbn.
    rewrite bool_decide_eq_false_2; [reflexivity|].
    rewrite Herr. intros [? ?]; discriminate.
Qed.

(** C8.  Every successful reverse lookup echoes the latitude and the
    longitude it was called with in [lat_input] and [lon_input], whatever
    the provider answered. *)
Theorem reverse_echoes_the_submitted_coordinates lat lon http log dto log' :
  service_reverse lat lon http log = (Ok dto, log') ->
  ReverseGeocodeResponseDTO.lat_input dto = lat
  /\ ReverseGeocodeResponseDTO.lon_input dto = lon.
Proof.
  rewrite service_reverse_run. intros H.
  destruct (negb (NominatimService.between (-90) lat 90)); [discriminate H|].
  destruct (negb (NominatimService.between (-180) lon 180)); [discriminate H|].
  destruct (client_reverse lat lon http log) as [[data|e] log0]; [|discriminate H].
  injection H as H _.
  apply build_reverse_inv in H as (d & _ & _ & _ & _ & _ & _ & _ & Hlat & Hlon).
  split; assumption.
Qed.

(** C9.  An address sub-object whose named entries are strings where
    present is mapped to an Address, and in every Address built from a
    sub-object each of the eight named fields is the string entry of that
    name when there is one, and is absent when the key is absent: it is
    then neither the empty string nor the string ["null"]. *)
Theorem address_fields_are_taken_by_name (fields : gmap string json) :
  (well_formed_address (JObj fields) = true ->
     exists a, NominatimService._build_address_dto (JObj fields) = Ok a)
  /\ (forall a,
        NominatimService._build_address_dto (JObj fields) = Ok a ->
        forall key, In key address_keys ->
          (forall s, fields !! key = Some (JStr s) -> address_field key a = Some s)
          /\ (fields !! key = None ->
                address_field key a = None
                /\ address_field key a <> Some ""
                /\ address_field key a <> Some "null")).
Proof.
  split.
  - intros Hwf. apply well_formed_address_builds in Hwf as (a & Ha & _).
    exists a. exact Ha.
  - intros a Ha key Hkey.
    apply build_address_inv in Ha as (fields' & Hf & Hshow).
    injection Hf as <-. specialize (Hshow key Hkey).
    unfold shows_str, dict_get in Hshow. split.
    + intros s Hs. rewrite Hs in Hshow. cbn in Hshow.
      destruct (address_field key a); [injection Hshow as ->; reflexivity
                                      | discriminate Hshow].
    + intros Hnone. rewrite Hnone in Hshow. cbn in Hshow.
      destruct (address_field key a); [discriminate Hshow|].
      repeat split; discriminate.
Qed.

(** C10.  When the [address] key of a raw record maps to the empty object,
    the Location built from the record and the response of the reverse
    lookup have no address; and whenever either embeds an Address, the
    record's [address] entry is a non-empty object. *)
Theorem empty_address_object_is_not_embedded (d : gmap string json) :
  (d !! "address" = Some (JObj ∅) ->
     (forall l, build_location (JObj d) = Ok l -> LocationDTO.address l = None)
     /\ (forall lat lon http log log' r,
           client_reverse lat lon http log = (Ok (JObj d), log') ->
           service_reverse lat lon http log = (Ok r, log') ->
           ReverseGeocodeResponseDTO.address r = None))
  /\ (forall l a,
        build_location (JObj d) = Ok l -> LocationDTO.address l = Some a ->
        exists fields, d !! "address" = Some (JObj fields) /\ fields <> ∅)
  /\ (forall lat lon http log log' r a,
        client_reverse lat lon http log = (Ok (JObj d), log') ->
        service_reverse lat lon http log = (Ok r, log') ->
        ReverseGeocodeResponseDTO.address r = Some a ->
        exists fields, d !! "address" = Some (JObj fields) /\ fields <> ∅).
Proof.
  assert (Hrev : forall lat lon http log log' r,
            client_reverse lat lon http log = (Ok (JObj d), log') ->
            service_reverse lat lon http log = (Ok r, log') ->
            NominatimService.embedded_address (JObj d)
            = Ok (ReverseGeocodeResponseDTO.address r)).
  { intros lat lon http log log' r Hclient H.
    rewrite service_reverse_run, Hclient in H.
    destruct (negb (NominatimService.between (-90) lat 90)); [discriminate H|].
    destruct (negb (NominatimService.between (-180) lon 180)); [discriminate H|].
    injection H as H.
    apply build_reverse_inv in H as (d' & Hd & _ & _ & _ & _ & Ha & _).
    injection Hd as <-. exact Ha. }
  repeat split.
  - intros l Hl.
    apply build_location_inv in Hl as (d' & Hd & _ & _ & _ & _ & Ha & _).
    injection Hd as <-. rewrite (embedded_address_empty d H) in Ha.
    injection Ha as <-. reflexivity.
  - intros lat lon http log log' r Hclient Hr.
    pose proof (Hrev _ _ _ _ _ _ Hclient Hr) as Ha.
    rewrite (embedded_address_empty d H) in Ha. injection Ha as <-. reflexivity.
  - intros l a Hl Hsome.
    apply build_location_inv in Hl as (d' & Hd & _ & _ & _ & _ & Ha & _).
    injection Hd as <-. rewrite Hsome in Ha.
    apply embedded_address_some in Ha as (fields & Hf & Hne & _).
    exists fields. split; assumption.
  - intros lat lon http log log' r a Hclient Hr Hsome.
    pose proof (Hrev _ _ _ _ _ _ Hclient Hr) as Ha. rewrite Hsome in Ha.
    apply embedded_address_some in Ha as (fields & Hf & Hne & _).
    exists fields. split; assumption.
Qed.

Lemma internal_status e : internal e = true -> status_of e = 500.
Proof. destruct e; try discriminate; reflexivity. Qed.

Lemma mapM_result_raise {A B} (f : A -> result B) (l : list A) (a : A) :
  In a l -> (exists e, f a = Raise e) -> exists e, mapM f l = Raise e.
Proof.
  intros Hin (e & He). induction l as [|x l IH]; [contradiction|].
  cbn [mapM]. destruct Hin as [->|Hin].
  - rewrite He. exists e. reflexivity.
  - destruct (f x) as [b|e0]; [|exists e0; reflexivity].
    destruct (IH Hin) as (e' & He'). rewrite He'. exists e'. reflexivity.
Qed.

Lemma missing_key_build_location (d : gmap string json) key :
  In key required_keys -> d !! key = None ->
  exists e, build_location (JObj d) = Raise e /\ internal e = true.
Proof.
  intros Hkey Hnone.
  pose proof (internal_only_build_location lax_int lax_float (JObj d)) as Hint.
  destruct (build_location (JObj d)) as [l|e] eqn:Hb; [exfalso|exists e; split; auto].
  apply build_location_inv in Hb as (d' & Hd & H1 & H2 & H3 & H4 & _).
  injection Hd as <-. cbn [In required_keys] in Hkey.
  destruct Hkey as [<-|[<-|[<-|[<-|[]]]]]; rewrite Hnone in *;
    match goal with H : is_Some None |- _ => destruct H; discriminate end.
Qed.

Lemma missing_key_build_reverse (d : gmap string json) key lat lon :
  In key required_keys -> d !! key = None ->
  exists e, build_reverse (JObj d) lat lon = Raise e /\ internal e = true.
Proof.
  intros Hkey Hnone.
  pose proof (internal_only_build_reverse lax_int lax_float (JObj d) lat lon) as Hint.
  destruct (build_reverse (JObj d) lat lon) as [l|e] eqn:Hb;
    [exfalso|exists e; split; auto].
  apply build_reverse_inv in Hb as (d' & Hd & H1 & H2 & H3 & H4 & _).
  injection Hd as <-. cbn [In required_keys] in Hkey.
  destruct Hkey as [<-|[<-|[<-|[<-|[]]]]]; rewrite Hnone in *;
    match goal with H : is_Some None |- _ => destruct H; discriminate end.
Qed.

Lemma licence_default (d : gmap string json) s :
  d !! "licence" = None ->
  pydantic.validate_str (dict_get_default d "licence" (JStr "")) = Ok s -> s = "".
Proof.
  unfold dict_get_default. intros ->. cbn. intros H. injection H as <-. reflexivity.
Qed.

(** C2, as the code has it.  The mapping treats [place_id], [lat], [lon]
    and [display_name] as mandatory: a record that lacks one of them is not
    mapped, and the search or the reverse lookup it belongs to fails with
    an exception that is not an [HTTPException], answered with status 500.
    [licence] is not mandatory: when a record lacks it, the Location or
    the reverse response is built with the empty string in its place. *)
Theorem missing_required_key_is_an_internal_error (d : gmap string json) :
  (forall key, In key required_keys -> d !! key = None ->
     (exists e, build_location (JObj d) = Raise e
                /\ internal e = true /\ status_of e = 500)
     /\ (forall q limit http log records log',
           blank q = false ->
           client_search (strip q) limit http log = (Ok records, log') ->
           In (JObj d) records ->
           exists e, service_search q limit http log = (Raise e, log')
                     /\ internal e = true /\ status_of e = 500)
     /\ (forall lat lon http log log',
           NominatimService.between (-90) lat 90 = true ->
           NominatimService.between (-180) lon 180 = true ->
           client_reverse lat lon http log = (Ok (JObj d), log') ->
           exists e, service_reverse lat lon http log = (Raise e, log')
                     /\ internal e = true /\ status_of e = 500))
  /\ (d !! "licence" = None ->
        (forall l, build_location (JObj d) = Ok l -> LocationDTO.licence l = "")
        /\ (forall lat lon http log log' r,
              client_reverse lat lon http log = (Ok (JObj d), log') ->
              service_reverse lat lon http log = (Ok r, log') ->
              ReverseGeocodeResponseDTO.licence r = "")).
Proof.
  split.
  - intros key Hkey Hnone. repeat split.
    + destruct (missing_key_build_location d key Hkey Hnone) as (e & He & Hint).
      exists e. auto using internal_status.
    + intros q limit http log records log' Hq Hclient Hin.
      rewrite service_search_run, Hclient.
      destruct (String.eqb (strip q) "") eqn:Hs.
      { apply String.eqb_eq, strip_empty_iff in Hs. congruence. }
      destruct records as [|r records]; [contradiction|].
      pose proof (internal_only_mapM build_location (r :: records)
                    (internal_only_build_location lax_int lax_float)) as Hint.
      destruct (mapM_result_raise build_location (r :: records) (JObj d) Hin)
        as (e & He).
      { destruct (missing_key_build_location d key Hkey Hnone) as (e & He & _).
        exists e. exact He. }
      rewrite He in Hint |- *. exists e. auto using internal_status.
    + intros lat lon http log log' Hlat Hlon Hclient.
      rewrite service_reverse_run, Hlat, Hlon, Hclient. cbn [negb].
      destruct (missing_key_build_reverse d key lat lon Hkey Hnone) as (e & He & Hint).
      rewrite He. exists e. auto using internal_status.
  - intros Hnone. split.
    + intros l Hl.
      apply build_location_inv in Hl as (d' & Hd & _ & _ & _ & _ & _ & Hlic & _).
      injection Hd as <-. eapply licence_default; eassumption.
    + intros lat lon http log log' r Hclient H.
      rewrite service_reverse_run, Hclient in H.
      destruct (negb (NominatimService.between (-90) lat 90)); [discriminate H|].
      destruct (negb (NominatimService.between (-180) lon 180)); [discriminate H|].
      injection H as H.
      apply build_reverse_inv in H as (d' & Hd & _ & _ & _ & _ & _ & Hlic & _).
      injection Hd as <-. eapply licence_default; eassumption.
Qed.

(** C3, as the code has it.  A search request whose limit is below 1 or
    above 50 is answered with status 422, whatever its query, and no
    outbound call is made for it. *)
Theorem limit_out_of_range_is_unprocessable network q limit :
  (limit < 1 \/ 50 < limit)%Z ->
  fastapi.status_code
    (fst (nominatimcontroller.search_address environ lax_int lax_float msg network
            q (fastapi.Given limit))) = 422
  /\ snd (nominatimcontroller.search_address environ lax_int lax_float msg network
            q (fastapi.Given limit)) = [].
Proof.
  intros Hlimit. unfold nominatimcontroller.search_address, fastapi.int_query.
  destruct (1 <=? limit)%Z eqn:Hlo; cbn [negb].
  - destruct (limit <=? 50)%Z eqn:Hhi; cbn [negb]; [lia|].
    destruct q; split; reflexivity.
  - destruct q; split; reflexivity.
Qed.

(** C4, as the code has it.  The Location built from a raw record that
    contains every optional field, with a non-empty address object,
    repeats each of those fields unchanged, [class] under the name
    [class_type], and the address through its eight named fields. *)
Theorem location_reproduces_optional_fields (d : gmap string json) l :
  has_all_optional d = true ->
  truthy (dict_get d "address") = true ->
  build_location (JObj d) = Ok l ->
  reproduces_optional d l.
Proof.
  unfold has_all_optional. rewrite !andb_true_iff.
  intros (((((H1 & H2) & H3) & H4) & H5) & H6) Ht Hl.
  apply build_location_inv in Hl
    as (d' & Hd & _ & _ & _ & _ & Ha & _ & E1 & E2 & E3 & E4 & E5).
  injection Hd as <-.
  apply required_of_lookup in H1 as (v1 & L1 & T1), H2 as (v2 & L2 & T2),
    H3 as (v3 & L3 & T3), H4 as (v4 & L4 & T4), H5 as (v5 & L5 & T5),
    H6 as (v6 & L6 & T6).
  unfold reproduces_optional. repeat split.
  - apply optional_str_inv, E1.
  - apply optional_int_inv with (lax_int := lax_int); [|exact E2].
    unfold dict_get. rewrite L2. exact T2.
  - apply optional_str_inv, E3.
  - apply optional_str_inv, E4.
  - apply optional_float_inv with (lax_float := lax_float); [|exact E5].
    unfold dict_get. rewrite L5. exact T5.
  - rewrite embedded_address_run, L6 in Ha.
    unfold dict_get in Ht |- *. rewrite L6 in Ht |- *. cbn [default from_option id] in *.
    rewrite Ht in Ha.
    destruct (NominatimService._build_address_dto v6) as [a|] eqn:Hb; [|discriminate Ha].
    injection Ha as <-.
    apply build_address_inv in Hb as (fields & -> & Hshow).
    exists a, fields. repeat split. exact Hshow.
Qed.

(** *** Stripping twice *)

Lemma rstrip_idempotent (s : string) : rstrip (rstrip s) = rstrip s.
Proof.
  induction s as [|c s IH]; [reflexivity|]. cbn [rstrip].
  destruct (rstrip s) as [|c' r] eqn:Hr.
  - destruct (isspace c) eqn:Hc; [reflexivity|]. cbn [rstrip]. rewrite Hc. reflexivity.
  - cbn [rstrip]. cbn [rstrip] in IH. rewrite IH. reflexivity.
Qed.

Lemma lstrip_rstrip_lstrip (s : string) : lstrip (rstrip (lstrip s)) = rstrip (lstrip s).
Proof.
  induction s as [|c s IH]; [reflexivity|]. cbn [lstrip].
  destruct (isspace c) eqn:Hc; [exact IH|].
  cbn [rstrip]. destruct (rstrip s); rewrite ?Hc; cbn [lstrip]; rewrite Hc; reflexivity.
Qed.

Lemma strip_idempotent (s : string) : strip (strip s) = strip s.
Proof.
  unfold strip. rewrite lstrip_rstrip_lstrip. apply rstrip_idempotent.
Qed.

(** X1.  Whitespace around the query changes nothing: the search behaves
    on a query as it does on the stripped query (same result, same
    request sent). *)
Theorem search_ignores_surrounding_whitespace q limit http log :
  service_search q limit http log = service_search (strip q) limit http log.
Proof.
  rewrite !service_search_run, strip_idempotent. reflexivity.
Qed.

(** *** Outbound calls *)

(** X2.  A search with a query that is not blank sends exactly one
    request, whatever comes of it: the search request for the stripped
    query and the given limit. *)
Theorem search_sends_exactly_one_request q limit http log :
  blank q = false ->
  snd (service_search q limit http log)
  = (log ++ [NominatimClient.search_request environ (strip q) limit])%list.
Proof.
  intros Hq. rewrite service_search_run.
  destruct (String.eqb (strip q) "") eqn:Hs.
  { apply String.eqb_eq, strip_empty_iff in Hs. congruence. }
  rewrite client_search_run.
  destruct (http _) as [response|]; [|reflexivity].
  destruct (httpx.status_code response =? 200)%Z; [|reflexivity].
  destruct (httpx.body response) as [[| | | | |items|]|]; try reflexivity.
  destruct items as [|r items]; [reflexivity|].
  destruct (mapM build_location (r :: items)); reflexivity.
Qed.

(** X3.  A reverse lookup with coordinates in range sends exactly one
    request, whatever comes of it: the reverse request for these
    coordinates. *)
Theorem reverse_sends_exactly_one_request lat lon http log :
  NominatimService.between (-90) lat 90 = true ->
  NominatimService.between (-180) lon 180 = true ->
  snd (service_reverse lat lon http log)
  = (log ++ [NominatimClient.reverse_request environ lat lon])%list.
Proof.
  intros Hlat Hlon. rewrite service_reverse_run, Hlat, Hlon. cbn [negb].
  rewrite client_reverse_run.
  destruct (http _) as [response|]; [|reflexivity].
  destruct (httpx.status_code response =? 200)%Z; [|reflexivity].
  destruct (httpx.body response) as [data|]; [|reflexivity].
  destruct (value_contains "error" data) as [[]|]; reflexivity.
Qed.

(** *** The endpoints, by their parameters *)

Lemma int_query_limit (limit : fastapi.param Z) :
  match accepted_limit limit with
  | Some l => fastapi.int_query "limit" (Some 10) 1 50 limit = inr l
  | None => exists e, fastapi.int_query "limit" (Some 10) 1 50 limit = inl [e]
  end.
Proof.
  destruct limit as [| |n]; cbn; [reflexivity | eexists; reflexivity |].
  destruct (1 <=? n)%Z; cbn; [|eexists; reflexivity].
  destruct (n <=? 50)%Z; cbn; [reflexivity | eexists; reflexivity].
Qed.

Lemma float_query_coordinate name lo hi (p : fastapi.param float) :
  match accepted_coordinate lo hi p with
  | Some x => fastapi.float_query name lo hi p = inr x
  | None => exists e, fastapi.float_query name lo hi p = inl [e]
  end.
Proof.
  destruct p as [| |x]; cbn; try (eexists; reflexivity).
  unfold NominatimService.between.
  destruct (PrimFloat.leb lo x), (PrimFloat.leb x hi); cbn;
    try reflexivity; eexists; reflexivity.
Qed.

Lemma accepted_coordinate_between lo hi p x :
  accepted_coordinate lo hi p = Some x ->
  p = fastapi.Given x /\ NominatimService.between lo x hi = true.
Proof.
  destruct p as [| |y]; cbn; try discriminate.
  destruct (NominatimService.between lo y hi) eqn:Hb; [|discriminate].
  intros H. injection H as <-. split; [reflexivity | exact Hb].
Qed.

(** The search endpoint on accepted parameters is the service, answered. *)
Lemma endpoint_search_accepted network q limit l :
  accepted_limit limit = Some l ->
  nominatimcontroller.search_address environ lax_int lax_float msg network (Some q) limit
  = (fastapi.respond fastapi.SearchContent (fst (service_search q l network [])),
     snd (service_search q l network [])).
Proof.
  intros Hl. unfold nominatimcontroller.search_address.
  pose proof (int_query_limit limit) as Hq. rewrite Hl in Hq. rewrite Hq. cbn.
  destruct (service_search q l network []); reflexivity.
Qed.

(** The reverse endpoint on accepted parameters is the service, answered. *)
Lemma endpoint_reverse_accepted network lat lon x y :
  accepted_coordinate (-90) 90 lat = Some x ->
  accepted_coordinate (-180) 180 lon = Some y ->
  nominatimcontroller.reverse_geocode environ float_str lax_int lax_float msg network lat lon
  = (fastapi.respond fastapi.ReverseContent (fst (service_reverse x y network [])),
     snd (service_reverse x y network [])).
Proof.
  intros Hx Hy. unfold nominatimcontroller.reverse_geocode.
  pose proof (float_query_coordinate "lat" (-90) 90 lat) as Hlat. rewrite Hx in Hlat.
  pose proof (float_query_coordinate "lon" (-180) 180 lon) as Hlon. rewrite Hy in Hlon.
  rewrite Hlat, Hlon. cbn.
  destruct (service_reverse x y network []); reflexivity.
Qed.

(** *** The endpoints, by the provider's answer *)

(** X4.  The search endpoint passes a provider status other than 200 on:
    the reply has that status, whatever the body of the provider's
    answer, and carries the client's message for it where the status
    allows a body; for a status below 200 and for 204, 205 and 304 the
    reply has no body. *)
Theorem search_endpoint_mirrors_provider_status network q limit l response :
  accepted_limit limit = Some l ->
  blank q = false ->
  network (NominatimClient.search_request environ (strip q) l) = Some response ->
  httpx.status_code response <> 200 ->
  nominatimcontroller.search_address environ lax_int lax_float msg network (Some q) limit
  = ({| fastapi.status_code := httpx.status_code response;
        fastapi.body :=
          if fastapi.is_body_allowed_for_status_code (httpx.status_code response)
          then fastapi.DetailContent
                 (NominatimClient._get_error_message (httpx.status_code response)
                    ("buscar direcci" +:+ chr 243 +:+ "n"))
          else fastapi.NoContent |},
     [NominatimClient.search_request environ (strip q) l]).
Proof.
  intros Hl Hq Hnet Hstatus.
  rewrite (endpoint_search_accepted _ _ _ _ Hl), service_search_run.
  destruct (String.eqb (strip q) "") eqn:Hs.
  { apply String.eqb_eq, strip_empty_iff in Hs. congruence. }
  rewrite client_search_run, Hnet.
  apply Z.eqb_neq in Hstatus. rewrite Hstatus. reflexivity.
Qed.

(** X5.  The reverse endpoint passes a provider status other than 200 on
    in the same way: the reply has that status, with the client's message
    for it where the status allows a body, and no body for a status
    below 200 and for 204, 205 and 304. *)
Theorem reverse_endpoint_mirrors_provider_status network lat lon x y response :
  accepted_coordinate (-90) 90 lat = Some x ->
  accepted_coordinate (-180) 180 lon = Some y ->
  network (NominatimClient.reverse_request environ x y) = Some response ->
  httpx.status_code response <> 200 ->
  nominatimcontroller.reverse_geocode environ float_str lax_int lax_float msg network lat lon
  = ({| fastapi.status_code := httpx.status_code response;
        fastapi.body :=
          if fastapi.is_body_allowed_for_status_code (httpx.status_code response)
          then fastapi.DetailContent
                 (NominatimClient._get_error_message (httpx.status_code response)
                    "realizar reverse geocoding")
          else fastapi.NoContent |},
     [NominatimClient.reverse_request environ x y]).
Proof.
  intros Hx Hy Hnet Hstatus.
  rewrite (endpoint_reverse_accepted _ _ _ _ _ Hx Hy), service_reverse_run.
  apply accepted_coordinate_between in Hx as [_ ->], Hy as [_ ->]. cbn [negb].
  rewrite client_reverse_run, Hnet.
  apply Z.eqb_neq in Hstatus. rewrite Hstatus. reflexivity.
Qed.

(** X6.  When the provider does not answer a search, or answers with
    status 200 and a body that is not JSON, the endpoint replies with a
    plain 500: these failures are not turned into an [HTTPException]. *)
Theorem search_endpoint_unreadable_answer network q limit l :
  accepted_limit limit = Some l ->
  blank q = false ->
  (network (NominatimClient.search_request environ (strip q) l) = None
   \/ network (NominatimClient.search_request environ (strip q) l)
      = Some {| httpx.status_code := 200; httpx.body := None |}) ->
  nominatimcontroller.search_address environ lax_int lax_float msg network (Some q) limit
  = (internal_server_error, [NominatimClient.search_request environ (strip q) l]).
Proof.
  intros Hl Hq Hnet.
  rewrite (endpoint_search_accepted _ _ _ _ Hl), service_search_run.
  destruct (String.eqb (strip q) "") eqn:Hs.
  { apply String.eqb_eq, strip_empty_iff in Hs. congruence. }
  rewrite client_search_run. destruct Hnet as [-> | ->]; reflexivity.
Qed.

(** X7.  When the provider answers a search with status 200 and a JSON
    body that is not a list, the endpoint replies with status 500 and
    the client's "unexpected response" message. *)
Theorem search_endpoint_body_not_a_list network q limit l data :
  accepted_limit limit = Some l ->
  blank q = false ->
  network (NominatimClient.search_request environ (strip q) l)
  = Some {| httpx.status_code := 200; httpx.body := Some data |} ->
  is_list data = false ->
  nominatimcontroller.search_address environ lax_int lax_float msg network (Some q) limit
  = ({| fastapi.status_code := 500;
        fastapi.body := fastapi.DetailContent NominatimClient.unexpected_response_detail |},
     [NominatimClient.search_request environ (strip q) l]).
Proof.
  intros Hl Hq Hnet Hdata.
  rewrite (endpoint_search_accepted _ _ _ _ Hl), service_search_run.
  destruct (String.eqb (strip q) "") eqn:Hs.
  { apply String.eqb_eq, strip_empty_iff in Hs. congruence. }
  rewrite client_search_run, Hnet.
  destruct data; try discriminate Hdata; reflexivity.
Qed.

Lemma build_reverse_not_object v lat lon :
  is_obj v = false -> build_reverse v lat lon = Raise AttributeError.
Proof. destruct v; try discriminate; reflexivity. Qed.

(** X8.  A reverse lookup that the provider answers with status 200 and
    a body that is not a JSON object never yields a result: the reply is
    the 404 of a missing address when the body is a list or a string in
    which ["error"] occurs, and a plain 500 otherwise. *)
Theorem reverse_endpoint_body_not_an_object network lat lon x y data :
  accepted_coordinate (-90) 90 lat = Some x ->
  accepted_coordinate (-180) 180 lon = Some y ->
  network (NominatimClient.reverse_request environ x y)
  = Some {| httpx.status_code := 200; httpx.body := Some data |} ->
  is_obj data = false ->
  nominatimcontroller.reverse_geocode environ float_str lax_int lax_float msg network lat lon
  = (match value_contains "error" data with
     | Ok true =>
         {| fastapi.status_code := 404;
            fastapi.body :=
              fastapi.DetailContent (NominatimClient.not_found_detail float_str x y) |}
     | _ => internal_server_error
     end, [NominatimClient.reverse_request environ x y]).
Proof.
  intros Hx Hy Hnet Hdata.
  rewrite (endpoint_reverse_accepted _ _ _ _ _ Hx Hy), service_reverse_run.
  apply accepted_coordinate_between in Hx as [_ ->], Hy as [_ ->]. cbn [negb].
  rewrite client_reverse_run, Hnet. cbn [httpx.status_code httpx.body Z.eqb Pos.eqb].
  destruct (value_contains "error" data) as [[]|e] eqn:Hc; cbn [fst snd].
  - reflexivity.
  - rewrite (build_reverse_not_object _ _ _ Hdata). reflexivity.
  - destruct data; try discriminate Hdata; cbn in Hc; try discriminate Hc;
      injection Hc as <-; reflexivity.
Qed.

(** *** The mappings *)

(** X9.  One record that cannot be mapped fails the whole search: no
    partial result is returned, the exception is an internal one
    (answered with status 500), and the request has been sent. *)
Theorem one_unmappable_record_fails_the_search q limit http log records log' record e :
  blank q = false ->
  client_search (strip q) limit http log = (Ok records, log') ->
  In record records ->
  build_location record = Raise e ->
  exists e', service_search q limit http log = (Raise e', log')
             /\ internal e' = true /\ status_of e' = 500.
Proof.
  intros Hq Hclient Hin Hbuild.
  rewrite service_search_run, Hclient.
  destruct (String.eqb (strip q) "") eqn:Hs.
  { apply String.eqb_eq, strip_empty_iff in Hs. congruence. }
  destruct records as [|r records]; [contradiction|].
  pose proof (internal_only_mapM build_location (r :: records)
                (internal_only_build_location lax_int lax_float)) as Hint.
  destruct (mapM_result_raise build_location (r :: records) record Hin) as (e' & He');
    [exists e; exact Hbuild|].
  rewrite He' in Hint |- *. exists e'. auto using internal_status.
Qed.

Lemma validate_str_inv v s : pydantic.validate_str v = Ok s -> v = JStr s.
Proof. destruct v; try discriminate. intros H. injection H as <-. reflexivity. Qed.

(** X10.  The required fields of a Location are the record's own: a
    Location is built only from an object whose [lat], [lon] and
    [display_name] are strings, which it repeats; an integer [place_id]
    is repeated; and the licence is the record's string, or the empty
    string when the record has no [licence] key (a [licence] that is
    present and not a string is not replaced: no Location is built). *)
Theorem location_repeats_required_fields v l :
  build_location v = Ok l ->
  exists d, v = JObj d
    /\ d !! "lat" = Some (JStr (LocationDTO.lat l))
    /\ d !! "lon" = Some (JStr (LocationDTO.lon l))
    /\ d !! "display_name" = Some (JStr (LocationDTO.display_name l))
    /\ (forall n, d !! "place_id" = Some (JInt n) -> LocationDTO.place_id l = n)
    /\ (d !! "licence" = None /\ LocationDTO.licence l = ""
        \/ d !! "licence" = Some (JStr (LocationDTO.licence l))).
Proof.
  unfold NominatimService._build_location_dto. intros H.
  apply bind_ok_inv in H as (address & Ea & H).
  destruct v as [| | | | | |d]; try discriminate Ea.
  unfold value_item, value_get, value_get_default, dict_item in H.
  destruct (d !! "place_id") as [v1|] eqn:L1; [|discriminate H].
  destruct (d !! "lat") as [v2|] eqn:L2; [|discriminate H].
  destruct (d !! "lon") as [v3|] eqn:L3; [|discriminate H].
  destruct (d !! "display_name") as [v4|] eqn:L4; [|discriminate H].
  revert H. run_result. unfold pydantic.LocationDTO. intros H.
  invert_binds H. injection H as <-. cbn.
  exists d. split; [reflexivity|].
  repeat match goal with
         | E : pydantic.validate_str _ = Ok _ |- _ => apply validate_str_inv in E
         end.
  subst v2 v3 v4. repeat split; try assumption.
  - intros n Hn. rewrite L1 in Hn. injection Hn as ->.
    match goal with E : pydantic.validate_int _ (JInt n) = Ok _ |- _ =>
      cbn in E; injection E as <- end. reflexivity.
  - unfold dict_get_default in *. destruct (d !! "licence") as [v5|]; cbn in *.
    + right. congruence.
    + left. split; [reflexivity | congruence].
Qed.

(** X11.  The response of a successful reverse lookup repeats the record
    the client returned: [lat], [lon] and [display_name] are the record's
    strings, [osm_type], [class] (as [class_type]) and [type] are the
    record's entries, absent when the record has none, and the licence is
    the record's or the empty string. *)
Theorem reverse_result_repeats_the_record lat lon http log r log' :
  service_reverse lat lon http log = (Ok r, log') ->
  exists d,
    client_reverse lat lon http log = (Ok (JObj d), log')
    /\ d !! "lat" = Some (JStr (ReverseGeocodeResponseDTO.lat r))
    /\ d !! "lon" = Some (JStr (ReverseGeocodeResponseDTO.lon r))
    /\ d !! "display_name" = Some (JStr (ReverseGeocodeResponseDTO.display_name r))
    /\ shows_str (ReverseGeocodeResponseDTO.osm_type r) (dict_get d "osm_type")
    /\ shows_str (ReverseGeocodeResponseDTO.class_type r) (dict_get d "class")
    /\ shows_str (ReverseGeocodeResponseDTO.type r) (dict_get d "type")
    /\ (d !! "licence" = None /\ ReverseGeocodeResponseDTO.licence r = ""
        \/ d !! "licence" = Some (JStr (ReverseGeocodeResponseDTO.licence r))).
Proof.
  rewrite service_reverse_run. intros H.
  destruct (negb (NominatimService.between (-90) lat 90)); [discriminate H|].
  destruct (negb (NominatimService.between (-180) lon 180)); [discriminate H|].
  destruct (client_reverse lat lon http log) as [[data|e] log0]; [|discriminate H].
  injection H as H <-.
  unfold NominatimService.build_reverse_dto in H.
  apply bind_ok_inv in H as (address & Ea & H).
  destruct data as [| | | | | |d]; try discriminate Ea.
  unfold value_item, value_get, value_get_default, dict_item in H.
  destruct (d !! "place_id") as [v1|] eqn:L1; [|discriminate H].
  destruct (d !! "lat") as [v2|] eqn:L2; [|discriminate H].
  destruct (d !! "lon") as [v3|] eqn:L3; [|discriminate H].
  destruct (d !! "display_name") as [v4|] eqn:L4; [|discriminate H].
  revert H. run_result. unfold pydantic.ReverseGeocodeResponseDTO. intros H.
  invert_binds H. injection H as <-. cbn.
  exists d. split; [reflexivity|].
  repeat match goal with
         | E : pydantic.validate_str _ = Ok _ |- _ => apply validate_str_inv in E
         end.
  subst v2 v3 v4. repeat split; try assumption; try (apply optional_str_inv; assumption).
  unfold dict_get_default in *. destruct (d !! "licence") as [v5|]; cbn in *.
  - right. congruence.
  - left. split; [reflexivity | congruence].
Qed.

Lemma shows_str_optional o v : shows_str o v -> optional_of is_str v = true.
Proof. unfold shows_str. intros ->. destruct o; reflexivity. Qed.

(** X12.  The mapping of an address succeeds exactly on the well-formed
    sub-objects: a value that is not an object, or an object in which one
    of the eight named entries is neither a string nor null, is turned
    down. *)
Theorem address_is_built_iff_well_formed v :
  (exists a, NominatimService._build_address_dto v = Ok a)
  <-> well_formed_address v = true.
Proof.
  split.
  - intros (a & Ha). apply build_address_inv in Ha as (fields & -> & Hshow).
    cbn [well_formed_address]. apply forallb_forall. intros key Hkey.
    eapply shows_str_optional, Hshow, Hkey.
  - intros Hwf. destruct v; try discriminate Hwf.
    apply well_formed_address_builds in Hwf as (a & Ha & _). exists a. exact Ha.
Qed.

(** X13.  Entries of an address sub-object under other keys than the
    eight named ones are ignored: adding one changes nothing. *)
Theorem address_ignores_other_keys (fields : gmap string json) key v :
  ~ In key address_keys ->
  NominatimService._build_address_dto (JObj (<[key := v]> fields))
  = NominatimService._build_address_dto (JObj fields).
Proof.
  intros Hkey. unfold NominatimService._build_address_dto, value_get, dict_get.
  rewrite !lookup_insert_ne; [reflexivity| |  | | | | | | ];
    intros ->; apply Hkey; cbn; repeat (first [left; reflexivity | right]).
Qed.

Lemma embedded_address_insert (d : gmap string json) key v :
  key <> "address" ->
  NominatimService.embedded_address (JObj (<[key := v]> d))
  = NominatimService.embedded_address (JObj d).
Proof.
  intros Hkey. rewrite !embedded_address_run, lookup_insert_ne by exact Hkey.
  reflexivity.
Qed.

(** X14.  Entries of a raw record under keys the mapping does not look
    at (bounding box, extra tags, name details, ...) are ignored: adding
    one changes nothing in the Location. *)
Theorem location_ignores_other_keys (d : gmap string json) key v :
  ~ In key location_keys ->
  build_location (JObj (<[key := v]> d)) = build_location (JObj d).
Proof.
  intros Hkey. unfold NominatimService._build_location_dto.
  rewrite embedded_address_insert by (intros ->; apply Hkey; cbn; tauto).
  unfold value_get, value_get_default, value_item, dict_item, dict_get, dict_get_default.
  rewrite !lookup_insert_ne; [reflexivity| | | | | | | | | | ];
    intros ->; apply Hkey; cbn; tauto.
Qed.

(** *** What the endpoints turn down, and what they never answer *)

Lemma search_endpoint_rejected network q limit :
  q = None \/ accepted_limit limit = None ->
  fastapi.status_code
    (fst (nominatimcontroller.search_address environ lax_int lax_float msg network q limit))
  = 422
  /\ snd (nominatimcontroller.search_address environ lax_int lax_float msg network q limit)
     = [].
Proof.
  intros H. unfold nominatimcontroller.search_address.
  pose proof (int_query_limit limit) as Hq.
  destruct (accepted_limit limit) as [l|].
  - destruct H as [->|H]; [|discriminate H]. rewrite Hq. split; reflexivity.
  - destruct Hq as (e & ->). destruct q; split; reflexivity.
Qed.

Lemma reverse_endpoint_rejected network lat lon :
  accepted_coordinate (-90) 90 lat = None \/ accepted_coordinate (-180) 180 lon = None ->
  fastapi.status_code
    (fst (nominatimcontroller.reverse_geocode environ float_str lax_int lax_float msg
            network lat lon))
  = 422
  /\ snd (nominatimcontroller.reverse_geocode environ float_str lax_int lax_float msg
            network lat lon)
     = [].
Proof.
  intros H. unfold nominatimcontroller.reverse_geocode.
  pose proof (float_query_coordinate "lat" (-90) 90 lat) as Hlat.
  pose proof (float_query_coordinate "lon" (-180) 180 lon) as Hlon.
  destruct (accepted_coordinate (-90) 90 lat) as [x|];
    destruct (accepted_coordinate (-180) 180 lon) as [y|].
  - destruct H as [H|H]; discriminate H.
  - destruct Hlon as (e & ->). rewrite Hlat. split; reflexivity.
  - destruct Hlat as (e & ->). rewrite Hlon. split; reflexivity.
  - destruct Hlat as (e & ->). destruct Hlon as (e' & ->). split; reflexivity.
Qed.

(** X15.  A search request without [q], or with a limit that is not an
    integer between 1 and 50, is answered with status 422, and no
    outbound call is made for it. *)
Theorem search_endpoint_turns_down_bad_parameters network q limit :
  q = None \/ accepted_limit limit = None ->
  fastapi.status_code
    (fst (nominatimcontroller.search_address environ lax_int lax_float msg network q limit))
  = 422
  /\ snd (nominatimcontroller.search_address environ lax_int lax_float msg network q limit)
     = [].
Proof. apply search_endpoint_rejected. Qed.

(** X16.  A reverse request in which a coordinate is missing, is not a
    number, or is out of range (a NaN included) is answered with status
    422, and no outbound call is made for it. *)
Theorem reverse_endpoint_turns_down_bad_parameters network lat lon :
  accepted_coordinate (-90) 90 lat = None \/ accepted_coordinate (-180) 180 lon = None ->
  fastapi.status_code
    (fst (nominatimcontroller.reverse_geocode environ float_str lax_int lax_float msg
            network lat lon))
  = 422
  /\ snd (nominatimcontroller.reverse_geocode environ float_str lax_int lax_float msg
            network lat lon)
     = [].
Proof. apply reverse_endpoint_rejected. Qed.

Lemma respond_detail_inv {A} (wrap : A -> fastapi.content) (r : result A) status detail :
  fastapi.respond wrap r
  = {| fastapi.status_code := status; fastapi.body := fastapi.DetailContent detail |} ->
  (exists a, r = Ok a) \/ r = Raise (HTTPException status detail).
Proof.
  destruct r as [a|e]; [left; eexists; reflexivity|].
  destruct e as [code text| | | | | |]; cbn; intros H; try discriminate H.
  destruct (fastapi.is_body_allowed_for_status_code code);
    [|discriminate H].
  injection H as -> ->. right. reflexivity.
Qed.

(** X17.  The coordinate checks of the service never decide the answer
    of the reverse endpoint: its reply is never the service's 400 for a
    latitude or a longitude out of range, whatever the parameters and
    the provider. *)
Theorem reverse_endpoint_never_answers_coordinate_400 network lat lon :
  fst (nominatimcontroller.reverse_geocode environ float_str lax_int lax_float msg
         network lat lon)
  <> {| fastapi.status_code := 400;
        fastapi.body := fastapi.DetailContent NominatimService.latitude_detail |}
  /\ fst (nominatimcontroller.reverse_geocode environ float_str lax_int lax_float msg
            network lat lon)
     <> {| fastapi.status_code := 400;
           fastapi.body := fastapi.DetailContent NominatimService.longitude_detail |}.
Proof.
  assert (Hany : forall detail,
            InvalidInput (HTTPException 400 detail) ->
            fst (nominatimcontroller.reverse_geocode environ float_str lax_int lax_float
                   msg network lat lon)
            <> {| fastapi.status_code := 400;
                  fastapi.body := fastapi.DetailContent detail |}).
  { intros detail Hinv Heq.
    destruct (accepted_coordinate (-90) 90 lat) as [x|] eqn:Hx;
      [destruct (accepted_coordinate (-180) 180 lon) as [y|] eqn:Hy|].
    - rewrite (endpoint_reverse_accepted _ _ _ _ _ Hx Hy) in Heq. cbn [fst] in Heq.
      destruct (respond_detail_inv _ _ _ _ Heq) as [(r & Hr)|Hr].
      + rewrite Hr in Heq. discriminate Heq.
      + revert Hr. rewrite service_reverse_run.
        apply accepted_coordinate_between in Hx as [_ ->], Hy as [_ ->]. cbn [negb].
        destruct (client_reverse x y network []) as [[data|e] log0] eqn:Hc; cbn [fst].
        * intros Hr.
          pose proof (internal_only_build_reverse lax_int lax_float data x y) as Hint.
          rewrite Hr in Hint. discriminate Hint.
        * intros Hr. injection Hr as ->.
          exact (client_reverse_not_invalid _ _ _ _ _ _ Hc Hinv).
    - destruct (reverse_endpoint_rejected network lat lon) as [H _];
        [right; exact Hy|].
      rewrite Heq in H. discriminate H.
    - destruct (reverse_endpoint_rejected network lat lon) as [H _];
        [left; exact Hx|].
      rewrite Heq in H. discriminate H. }
  split; apply Hany; unfold InvalidInput; auto.
Qed.

(** X18.  A blank query with an acceptable limit is answered with status
    400 and the service's message for it, and no outbound call is made. *)
Theorem search_endpoint_blank_query network q limit l :
  accepted_limit limit = Some l ->
  blank q = true ->
  nominatimcontroller.search_address environ lax_int lax_float msg network (Some q) limit
  = ({| fastapi.status_code := 400;
        fastapi.body := fastapi.DetailContent NominatimService.empty_query_detail |}, []).
Proof.
  intros Hl Hq. rewrite (endpoint_search_accepted _ _ _ _ Hl), service_search_run.
  apply strip_empty_iff in Hq. rewrite Hq. reflexivity.
Qed.

(** X19.  The search endpoint answers 200 only with a search result: the
    body is then a result for the stripped query, which is not blank,
    with at least one Location and their number as [total]. *)
Theorem search_endpoint_200_carries_a_result network q limit :
  fastapi.status_code
    (fst (nominatimcontroller.search_address environ lax_int lax_float msg network q limit))
  = 200 ->
  exists query dto,
    q = Some query
    /\ blank query = false
    /\ fastapi.body
         (fst (nominatimcontroller.search_address environ lax_int lax_float msg network
                 q limit))
       = fastapi.SearchContent dto
    /\ GeocodeSearchResponseDTO.query dto = strip query
    /\ GeocodeSearchResponseDTO.results dto <> []
    /\ GeocodeSearchResponseDTO.total dto
       = Z.of_nat (length (GeocodeSearchResponseDTO.results dto)).
Proof.
  intros Hstatus.
  destruct q as [query|]; cycle 1.
  { destruct (search_endpoint_rejected network None limit) as [H _];
      [left; reflexivity|]. rewrite H in Hstatus. discriminate Hstatus. }
  destruct (accepted_limit limit) as [l|] eqn:Hl; cycle 1.
  { destruct (search_endpoint_rejected network (Some query) limit)
      as [H _]; [right; exact Hl|]. rewrite H in Hstatus. discriminate Hstatus. }
  exists query. revert Hstatus.
  rewrite (endpoint_search_accepted _ _ _ _ Hl), service_search_run. cbn [fst].
  destruct (String.eqb (strip query) "") eqn:Hs; [intros H; discriminate H|].
  assert (Hq : blank query = false).
  { destruct (blank query) eqn:Hb; [|reflexivity].
    apply strip_empty_iff in Hb. rewrite Hb in Hs. discriminate Hs. }
  rewrite client_search_run.
  destruct (network _) as [response|]; [|intros H; discriminate H].
  destruct (httpx.status_code response =? 200)%Z eqn:Hcode; cycle 1.
  { cbn. intros H. rewrite H in Hcode. discriminate Hcode. }
  destruct (httpx.body response) as [[| | | | |items|]|]; try (intros H; discriminate H).
  destruct items as [|r items]; [intros H; discriminate H|].
  destruct (mapM build_location (r :: items)) as [locations|e] eqn:Hmap; cbn [fst].
  - intros _. eexists. repeat split; try reflexivity; [exact Hq|].
    cbn. apply mapM_result_inv, Forall2_length in Hmap.
    destruct locations; [discriminate Hmap | discriminate].
  - pose proof (internal_only_mapM build_location (r :: items)
                  (internal_only_build_location lax_int lax_float)) as Hint.
    rewrite Hmap in Hint. destruct e; try discriminate Hint; intros H; discriminate H.
Qed.

(** X21.  The reverse endpoint answers 200 only with a reverse result:
    both coordinates were then given and in range, and the body echoes
    them in [lat_input] and [lon_input]. *)
Theorem reverse_endpoint_200_carries_a_result network lat lon :
  fastapi.status_code
    (fst (nominatimcontroller.reverse_geocode environ float_str lax_int lax_float msg
            network lat lon))
  = 200 ->
  exists x y r,
    lat = fastapi.Given x /\ NominatimService.between (-90) x 90 = true
    /\ lon = fastapi.Given y /\ NominatimService.between (-180) y 180 = true
    /\ fastapi.body
         (fst (nominatimcontroller.reverse_geocode environ float_str lax_int lax_float
                 msg network lat lon))
       = fastapi.ReverseContent r
    /\ ReverseGeocodeResponseDTO.lat_input r = x
    /\ ReverseGeocodeResponseDTO.lon_input r = y.
Proof.
  intros Hstatus.
  destruct (accepted_coordinate (-90) 90 lat) as [x|] eqn:Hx; cycle 1.
  { destruct (reverse_endpoint_rejected network lat lon) as [H _]; [left; exact Hx|].
    rewrite H in Hstatus. discriminate Hstatus. }
  destruct (accepted_coordinate (-180) 180 lon) as [y|] eqn:Hy; cycle 1.
  { destruct (reverse_endpoint_rejected network lat lon) as [H _]; [right; exact Hy|].
    rewrite H in Hstatus. discriminate Hstatus. }
  exists x, y. revert Hstatus.
  rewrite (endpoint_reverse_accepted _ _ _ _ _ Hx Hy), service_reverse_run. cbn [fst].
  apply accepted_coordinate_between in Hx as [-> Hbx], Hy as [-> Hby].
  rewrite Hbx, Hby. cbn [negb]. rewrite client_reverse_run.
  destruct (network _) as [response|]; [|intros H; discriminate H].
  destruct (httpx.status_code response =? 200)%Z eqn:Hcode; cycle 1.
  { cbn. intros H. rewrite H in Hcode. discriminate Hcode. }
  destruct (httpx.body response) as [data|]; [|intros H; discriminate H].
  destruct (value_contains "error" data) as [[]|e] eqn:Hc; cbn [fst].
  - intros H; discriminate H.
  - destruct (build_reverse data x y) as [r|e] eqn:Hr.
    + intros _. exists r.
      apply build_reverse_inv in Hr as (d & _ & _ & _ & _ & _ & _ & _ & Hlat & Hlon).
      repeat split; assumption.
    + pose proof (internal_only_build_reverse lax_int lax_float data x y) as Hint.
      rewrite Hr in Hint. destruct e; try discriminate Hint; intros H; discriminate H.
  - destruct data; cbn in Hc; try discriminate Hc; injection Hc as <-;
      intros H; discriminate H.
Qed.

(** *** The client's messages *)

Lemma prefix_append (s t : string) : String.prefix s (s +:+ t) = true.
Proof.
  induction s as [|c s IH]; simpl; [destruct t; reflexivity|].
  destruct (Ascii.ascii_dec c c) as [_|Hc]; [exact IH | contradiction].
Qed.

Lemma append_assoc (a b c : string) : (a +:+ b) +:+ c = a +:+ b +:+ c.
Proof.
  induction a as [|x a IH]; [reflexivity|].
  change (String x ((a +:+ b) +:+ c) = String x (a +:+ b +:+ c)). rewrite IH. reflexivity.
Qed.

Lemma unknown_status_lookup (table : list (Z * string)) code :
  ~ In code (map fst table) -> (list_to_map table : gmap Z string) !! code = None.
Proof.
  intros H. apply not_elem_of_list_to_map_1. rewrite list_elem_of_In. exact H.
Qed.

(** X20.  The client's message for a provider status names that status
    first, whatever the operation, and for a status outside its table
    (400, 403, 404, 429, 500, 503) it is the generic text built from the
    code alone. *)
Theorem error_message_names_the_status code operation :
  String.prefix ("Error " +:+ str_int code +:+ " ")
    (NominatimClient._get_error_message code operation) = true
  /\ (~ In code known_statuses ->
        NominatimClient._get_error_message code operation
        = "Error " +:+ str_int code +:+ " " +:+ ("HTTP " +:+ str_int code)
            +:+ ": " +:+ ("Error HTTP " +:+ str_int code)).
Proof.
  split.
  - unfold NominatimClient._get_error_message. cbv zeta.
    rewrite <- (append_assoc (str_int code) " "),
      <- (append_assoc "Error " (str_int code +:+ " ")).
    apply prefix_append.
  - intros Hcode. unfold NominatimClient._get_error_message,
      NominatimClient.error_names, NominatimClient.error_reasons.
    rewrite !unknown_status_lookup by exact Hcode. reflexivity.
Qed.

End Operations.

(** * Concrete instances *)

Example strip_sample : strip sample_query = "1600 Amphitheatre Parkway".
Proof. reflexivity. Qed.

Example build_full_record :
  NominatimService._build_location_dto strict_int strict_float (JObj full_record)
  = Ok (sample_location "ODbL" (Some sample_address_dto)).
Proof. vm_compute. reflexivity. Qed.

Example upstream_status_is_passed_on :
  nominatimcontroller.search_address ∅ strict_int strict_float sample_msg
    (fun _ => Some {| httpx.status_code := 429; httpx.body := None |})
    (Some sample_query) fastapi.Missing
  = ({| fastapi.status_code := 429;
        fastapi.body :=
          fastapi.DetailContent (NominatimClient._get_error_message 429 "") |},
     [NominatimClient.search_request ∅ "1600 Amphitheatre Parkway" 10]).
Proof. vm_compute. reflexivity. Qed.

(** C1 at three records, the first the one of the specification's
    end-to-end scenario: each Location is spelled out, in the order of
    the records. *)
Lemma search_maps_every_record_in_order_witness :
  NominatimService.search_address ∅ strict_int strict_float sample_query 3
    (answering (JList [JObj full_record; JObj second_record; JObj third_record])) []
  = (Ok {| GeocodeSearchResponseDTO.results :=
             [ sample_location "ODbL" (Some sample_address_dto);
               second_location; third_location ];
           GeocodeSearchResponseDTO.total := 3;
           GeocodeSearchResponseDTO.query := "1600 Amphitheatre Parkway" |},
     [NominatimClient.search_request ∅ "1600 Amphitheatre Parkway" 3]).
Proof.
  etransitivity.
  - apply (search_maps_every_record_in_order ∅ strict_int strict_float sample_query 3
             (answering (JList [JObj full_record; JObj second_record; JObj third_record]))
             [] [JObj full_record; JObj second_record; JObj third_record]
             [NominatimClient.search_request ∅ "1600 Amphitheatre Parkway" 3]).
    + reflexivity.
    + lia.
    + vm_compute. reflexivity.
    + simpl. lia.
    + vm_compute. reflexivity.
  - vm_compute. reflexivity.
Defined.

(** C2 as stated fails: a record without [licence] is mapped, with the
    empty string in its place, and the search answers 200. *)
Lemma absent_licence_is_defaulted :
  unlicensed_record !! "licence" = None
  /\ nominatimcontroller.search_address ∅ strict_int strict_float sample_msg
       (answering (JList [JObj unlicensed_record])) (Some sample_query) (fastapi.Given 1)
     = ({| fastapi.status_code := 200;
           fastapi.body :=
             fastapi.SearchContent
               {| GeocodeSearchResponseDTO.results :=
                    [sample_location "" (Some sample_address_dto)];
                  GeocodeSearchResponseDTO.total := 1;
                  GeocodeSearchResponseDTO.query := "1600 Amphitheatre Parkway" |} |},
        [NominatimClient.search_request ∅ "1600 Amphitheatre Parkway" 1]).
Proof. split; vm_compute; reflexivity. Qed.

(** C2 as amended, at a record without [lat]. *)
Lemma missing_required_key_is_an_internal_error_witness :
  exists e,
    NominatimService._build_location_dto strict_int strict_float (JObj record_without_lat)
    = Raise e
    /\ internal e = true /\ status_of e = 500.
Proof.
  destruct (missing_required_key_is_an_internal_error ∅ sample_float_str strict_int
              strict_float record_without_lat) as [H _].
  destruct (H "lat") as [Hbuild _].
  - cbn. tauto.
  - vm_compute. reflexivity.
  - exact Hbuild.
Defined.

(** C3 as stated fails: a limit of 0 is answered with 422, not 400. *)
Lemma limit_zero_is_answered_422 :
  fastapi.status_code
    (fst (nominatimcontroller.search_address ∅ strict_int strict_float sample_msg
            (answering (JList [])) (Some sample_query) (fastapi.Given 0)))
  = 422
  /\ fastapi.status_code
       (fst (nominatimcontroller.search_address ∅ strict_int strict_float sample_msg
               (answering (JList [])) (Some sample_query) (fastapi.Given 0)))
     <> 400.
Proof. split; vm_compute; [reflexivity | discriminate]. Qed.

(** C3 as amended, at a limit of 51. *)
Lemma limit_out_of_range_is_unprocessable_witness :
  fastapi.status_code
    (fst (nominatimcontroller.search_address ∅ strict_int strict_float sample_msg
            (answering (JList [JObj full_record])) (Some sample_query) (fastapi.Given 51)))
  = 422
  /\ snd (nominatimcontroller.search_address ∅ strict_int strict_float sample_msg
            (answering (JList [JObj full_record])) (Some sample_query) (fastapi.Given 51))
     = [].
Proof.
  apply (limit_out_of_range_is_unprocessable ∅ strict_int strict_float sample_msg).
  right. lia.
Defined.

(** C4 as stated fails: a record with every optional field and an empty
    address object is mapped to a Location without an address. *)
Lemma empty_address_is_not_reproduced :
  has_all_optional empty_address_record = true
  /\ dict_get empty_address_record "address" = JObj ∅
  /\ NominatimService._build_location_dto strict_int strict_float
       (JObj empty_address_record)
     = Ok (sample_location "ODbL" None)
  /\ ~ reproduces_optional empty_address_record (sample_location "ODbL" None).
Proof.
  repeat split; try (vm_compute; reflexivity).
  intros (_ & _ & _ & _ & _ & (a & fields & Ha & _)). discriminate Ha.
Qed.

(** C4 as amended, at the full record. *)
Lemma location_reproduces_optional_fields_witness :
  reproduces_optional full_record (sample_location "ODbL" (Some sample_address_dto)).
Proof.
  apply (location_reproduces_optional_fields strict_int strict_float).
  - vm_compute. reflexivity.
  - vm_compute. reflexivity.
  - vm_compute. reflexivity.
Defined.

(** C5 at a query of three spaces: rejected, and nothing was sent. *)
Lemma invalid_input_exactly_and_before_any_call_witness :
  NominatimService.search_address ∅ strict_int strict_float "   " 10
    (answering (JList [JObj full_record])) []
  = (Raise (HTTPException 400 NominatimService.empty_query_detail), []).
Proof.
  apply (invalid_input_exactly_and_before_any_call ∅ sample_float_str strict_int
           strict_float "   " 10 sample_lat sample_lon).
  reflexivity.
Defined.

(** C6 at the scenario of the specification. *)
Lemma reverse_error_payload_is_not_found_witness :
  NominatimClient.reverse_geocode ∅ sample_float_str sample_lat sample_lon
    (answering (JObj unable_to_geocode)) []
  = (Raise (HTTPException 404
              (NominatimClient.not_found_detail sample_float_str sample_lat sample_lon)),
     [NominatimClient.reverse_request ∅ sample_lat sample_lon])
  /\ fastapi.status_code
       (fst (nominatimcontroller.reverse_geocode ∅ sample_float_str strict_int
               strict_float sample_msg (answering (JObj unable_to_geocode))
               (fastapi.Given sample_lat) (fastapi.Given sample_lon)))
     = 404.
Proof.
  destruct (reverse_error_payload_is_not_found ∅ sample_float_str strict_int strict_float
              sample_msg sample_lat sample_lon (answering (JObj unable_to_geocode)) []
              unable_to_geocode eq_refl) as [H _].
  destruct H as [Hclient Hrest].
  - exists (JStr "Unable to geocode"). reflexivity.
  - split; [exact Hclient|].
    apply Hrest; reflexivity.
Defined.

(** C7 at a provider that finds nothing. *)
Lemma search_result_is_never_empty_witness :
  NominatimService.search_address ∅ strict_int strict_float sample_query 10
    (answering (JList [])) []
  = (Raise (HTTPException 404
              (NominatimService.no_locations_detail "1600 Amphitheatre Parkway")),
     [NominatimClient.search_request ∅ "1600 Amphitheatre Parkway" 10]).
Proof.
  apply (search_result_is_never_empty ∅ strict_int strict_float sample_query 10
           (answering (JList [])) []).
  - reflexivity.
  - vm_compute. reflexivity.
Defined.

(** C8 at the scenario of the specification: the provider's own
    coordinates differ from the submitted ones in the last digit. *)
Lemma reverse_echoes_the_submitted_coordinates_witness :
  NominatimService.reverse_geocode ∅ sample_float_str strict_int strict_float
    sample_lat sample_lon (answering (JObj full_record)) []
  = (Ok (sample_reverse sample_lat sample_lon),
     [NominatimClient.reverse_request ∅ sample_lat sample_lon])
  /\ ReverseGeocodeResponseDTO.lat (sample_reverse sample_lat sample_lon) = "37.4224765"
  /\ ReverseGeocodeResponseDTO.lat_input (sample_reverse sample_lat sample_lon) = sample_lat
  /\ ReverseGeocodeResponseDTO.lon_input (sample_reverse sample_lat sample_lon) = sample_lon.
Proof.
  assert (Hrun : NominatimService.reverse_geocode ∅ sample_float_str strict_int
                   strict_float sample_lat sample_lon (answering (JObj full_record)) []
                 = (Ok (sample_reverse sample_lat sample_lon),
                    [NominatimClient.reverse_request ∅ sample_lat sample_lon])).
  { vm_compute. reflexivity. }
  split; [exact Hrun|]. split; [reflexivity|].
  exact (reverse_echoes_the_submitted_coordinates ∅ sample_float_str strict_int
           strict_float sample_lat sample_lon (answering (JObj full_record)) []
           (sample_reverse sample_lat sample_lon) _ Hrun).
Defined.

(** C9 at an address sub-object without [postcode]. *)
Lemma address_fields_are_taken_by_name_witness :
  NominatimService._build_address_dto (JObj sample_address) = Ok sample_address_dto
  /\ AddressDTO.road sample_address_dto = Some "Amphitheatre Parkway"
  /\ AddressDTO.postcode sample_address_dto = None.
Proof.
  assert (Hbuild : NominatimService._build_address_dto (JObj sample_address)
                   = Ok sample_address_dto) by (vm_compute; reflexivity).
  destruct (address_fields_are_taken_by_name sample_address) as [_ H].
  split; [exact Hbuild|]. split.
  - apply (H sample_address_dto Hbuild "road"); [cbn; tauto | vm_compute; reflexivity].
  - apply (H sample_address_dto Hbuild "postcode"); [cbn; tauto | vm_compute; reflexivity].
Defined.

(** C10 at a record whose address object is empty. *)
Lemma empty_address_object_is_not_embedded_witness :
  NominatimService._build_location_dto strict_int strict_float (JObj empty_address_record)
  = Ok (sample_location "ODbL" None)
  /\ LocationDTO.address (sample_location "ODbL" None) = None.
Proof.
  assert (Hbuild : NominatimService._build_location_dto strict_int strict_float
                     (JObj empty_address_record)
                   = Ok (sample_location "ODbL" None)) by (vm_compute; reflexivity).
  split; [exact Hbuild|].
  destruct (empty_address_object_is_not_embedded ∅ sample_float_str strict_int
              strict_float empty_address_record) as [H _].
  apply H; [vm_compute; reflexivity | exact Hbuild].
Defined.

(** ** Instances of the further properties *)

Lemma search_sends_exactly_one_request_witness :
  snd (NominatimService.search_address ∅ strict_int strict_float sample_query 5
         unreachable [])
  = [NominatimClient.search_request ∅ "1600 Amphitheatre Parkway" 5].
Proof.
  apply (search_sends_exactly_one_request ∅ strict_int strict_float sample_query 5
           unreachable []).
  reflexivity.
Defined.

Lemma reverse_sends_exactly_one_request_witness :
  snd (NominatimService.reverse_geocode ∅ sample_float_str strict_int strict_float
         sample_lat sample_lon unreachable [])
  = [NominatimClient.reverse_request ∅ sample_lat sample_lon].
Proof.
  apply (reverse_sends_exactly_one_request ∅ sample_float_str strict_int strict_float
           sample_lat sample_lon unreachable []); reflexivity.
Defined.

Lemma search_endpoint_mirrors_provider_status_witness :
  nominatimcontroller.search_address ∅ strict_int strict_float sample_msg
    (failing_with 429) (Some sample_query) fastapi.Missing
  = ({| fastapi.status_code := 429;
        fastapi.body :=
          fastapi.DetailContent
            (NominatimClient._get_error_message 429
               ("buscar direcci" +:+ chr 243 +:+ "n")) |},
     [NominatimClient.search_request ∅ "1600 Amphitheatre Parkway" 10])
  /\ nominatimcontroller.search_address ∅ strict_int strict_float sample_msg
       (failing_with 204) (Some sample_query) fastapi.Missing
     = ({| fastapi.status_code := 204; fastapi.body := fastapi.NoContent |},
        [NominatimClient.search_request ∅ "1600 Amphitheatre Parkway" 10]).
Proof.
  split.
  - apply (search_endpoint_mirrors_provider_status ∅ strict_int strict_float sample_msg
             (failing_with 429) sample_query fastapi.Missing 10
             {| httpx.status_code := 429; httpx.body := None |});
      [reflexivity | reflexivity | reflexivity | discriminate].
  - apply (search_endpoint_mirrors_provider_status ∅ strict_int strict_float sample_msg
             (failing_with 204) sample_query fastapi.Missing 10
             {| httpx.status_code := 204; httpx.body := None |});
      [reflexivity | reflexivity | reflexivity | discriminate].
Defined.

Lemma reverse_endpoint_mirrors_provider_status_witness :
  nominatimcontroller.reverse_geocode ∅ sample_float_str strict_int strict_float
    sample_msg (failing_with 503) (fastapi.Given sample_lat) (fastapi.Given sample_lon)
  = ({| fastapi.status_code := 503;
        fastapi.body :=
          fastapi.DetailContent
            (NominatimClient._get_error_message 503 "realizar reverse geocoding") |},
     [NominatimClient.reverse_request ∅ sample_lat sample_lon])
  /\ nominatimcontroller.reverse_geocode ∅ sample_float_str strict_int strict_float
       sample_msg (failing_with 304) (fastapi.Given sample_lat) (fastapi.Given sample_lon)
     = ({| fastapi.status_code := 304; fastapi.body := fastapi.NoContent |},
        [NominatimClient.reverse_request ∅ sample_lat sample_lon]).
Proof.
  split.
  - apply (reverse_endpoint_mirrors_provider_status ∅ sample_float_str strict_int
             strict_float sample_msg (failing_with 503) (fastapi.Given sample_lat)
             (fastapi.Given sample_lon) sample_lat sample_lon
             {| httpx.status_code := 503; httpx.body := None |});
      [reflexivity | reflexivity | reflexivity | discriminate].
  - apply (reverse_endpoint_mirrors_provider_status ∅ sample_float_str strict_int
             strict_float sample_msg (failing_with 304) (fastapi.Given sample_lat)
             (fastapi.Given sample_lon) sample_lat sample_lon
             {| httpx.status_code := 304; httpx.body := None |});
      [reflexivity | reflexivity | reflexivity | discriminate].
Defined.

Lemma search_endpoint_unreadable_answer_witness :
  nominatimcontroller.search_address ∅ strict_int strict_float sample_msg
    (failing_with 200) (Some sample_query) (fastapi.Given 50)
  = (internal_server_error,
     [NominatimClient.search_request ∅ "1600 Amphitheatre Parkway" 50]).
Proof.
  apply (search_endpoint_unreadable_answer ∅ strict_int strict_float sample_msg
           (failing_with 200) sample_query (fastapi.Given 50) 50);
    [reflexivity | reflexivity | right; reflexivity].
Defined.

Lemma search_endpoint_body_not_a_list_witness :
  nominatimcontroller.search_address ∅ strict_int strict_float sample_msg
    (answering (JObj full_record)) (Some sample_query) (fastapi.Given 1)
  = ({| fastapi.status_code := 500;
        fastapi.body := fastapi.DetailContent NominatimClient.unexpected_response_detail |},
     [NominatimClient.search_request ∅ "1600 Amphitheatre Parkway" 1]).
Proof.
  apply (search_endpoint_body_not_a_list ∅ strict_int strict_float sample_msg
           (answering (JObj full_record)) sample_query (fastapi.Given 1) 1
           (JObj full_record)); reflexivity.
Defined.

Lemma reverse_endpoint_body_not_an_object_witness :
  nominatimcontroller.reverse_geocode ∅ sample_float_str strict_int strict_float
    sample_msg (answering (JList [JStr "error"]))
    (fastapi.Given sample_lat) (fastapi.Given sample_lon)
  = ({| fastapi.status_code := 404;
        fastapi.body :=
          fastapi.DetailContent
            (NominatimClient.not_found_detail sample_float_str sample_lat sample_lon) |},
     [NominatimClient.reverse_request ∅ sample_lat sample_lon])
  /\ nominatimcontroller.reverse_geocode ∅ sample_float_str strict_int strict_float
       sample_msg (answering (JList [JObj full_record]))
       (fastapi.Given sample_lat) (fastapi.Given sample_lon)
     = (internal_server_error, [NominatimClient.reverse_request ∅ sample_lat sample_lon]).
Proof.
  split.
  - exact (reverse_endpoint_body_not_an_object ∅ sample_float_str strict_int
             strict_float sample_msg (answering (JList [JStr "error"]))
             (fastapi.Given sample_lat) (fastapi.Given sample_lon) sample_lat sample_lon
             (JList [JStr "error"]) eq_refl eq_refl eq_refl eq_refl).
  - exact (reverse_endpoint_body_not_an_object ∅ sample_float_str strict_int
             strict_float sample_msg (answering (JList [JObj full_record]))
             (fastapi.Given sample_lat) (fastapi.Given sample_lon) sample_lat sample_lon
             (JList [JObj full_record]) eq_refl eq_refl eq_refl eq_refl).
Defined.

Lemma one_unmappable_record_fails_the_search_witness :
  exists e,
    NominatimService.search_address ∅ strict_int strict_float sample_query 2
      (answering (JList [JObj full_record; JNull])) []
    = (Raise e, [NominatimClient.search_request ∅ "1600 Amphitheatre Parkway" 2])
    /\ internal e = true /\ status_of e = 500.
Proof.
  apply (one_unmappable_record_fails_the_search ∅ strict_int strict_float sample_query 2
           (answering (JList [JObj full_record; JNull])) []
           [JObj full_record; JNull]
           [NominatimClient.search_request ∅ "1600 Amphitheatre Parkway" 2]
           JNull AttributeError).
  - reflexivity.
  - vm_compute. reflexivity.
  - right. left. reflexivity.
  - reflexivity.
Defined.

Lemma location_repeats_required_fields_witness :
  exists d, JObj full_record = JObj d
    /\ d !! "lat" = Some (JStr "37.4224765")
    /\ d !! "lon" = Some (JStr "-122.0842500")
    /\ d !! "display_name" = Some (JStr "1600 Amphitheatre Parkway, Mountain View")
    /\ (forall n, d !! "place_id" = Some (JInt n) -> 123456%Z = n)
    /\ (d !! "licence" = None /\ "ODbL" = ""
        \/ d !! "licence" = Some (JStr "ODbL")).
Proof.
  apply (location_repeats_required_fields strict_int strict_float (JObj full_record)
           (sample_location "ODbL" (Some sample_address_dto))).
  vm_compute. reflexivity.
Defined.

Lemma reverse_result_repeats_the_record_witness :
  exists d,
    NominatimClient.reverse_geocode ∅ sample_float_str sample_lat sample_lon
      (answering (JObj full_record)) []
    = (Ok (JObj d), [NominatimClient.reverse_request ∅ sample_lat sample_lon])
    /\ d !! "lat" = Some (JStr "37.4224765")
    /\ d !! "lon" = Some (JStr "-122.0842500")
    /\ d !! "display_name" = Some (JStr "1600 Amphitheatre Parkway, Mountain View")
    /\ shows_str (Some "way") (dict_get d "osm_type")
    /\ shows_str (Some "place") (dict_get d "class")
    /\ shows_str (Some "house") (dict_get d "type")
    /\ (d !! "licence" = None /\ "ODbL" = ""
        \/ d !! "licence" = Some (JStr "ODbL")).
Proof.
  apply (reverse_result_repeats_the_record ∅ sample_float_str strict_int strict_float
           sample_lat sample_lon (answering (JObj full_record)) []
           (sample_reverse sample_lat sample_lon)
           [NominatimClient.reverse_request ∅ sample_lat sample_lon]).
  vm_compute. reflexivity.
Defined.

Lemma address_ignores_other_keys_witness :
  NominatimService._build_address_dto (JObj (<["suburb" := JStr "Shoreline"]> sample_address))
  = NominatimService._build_address_dto (JObj sample_address).
Proof.
  apply (address_ignores_other_keys sample_address "suburb" (JStr "Shoreline")).
  cbn. intros H. repeat (destruct H as [H|H]; [discriminate H|]). exact H.
Defined.

Lemma location_ignores_other_keys_witness :
  NominatimService._build_location_dto strict_int strict_float
    (JObj (<["boundingbox" := JList [JStr "37.42"; JStr "37.43"]]> full_record))
  = NominatimService._build_location_dto strict_int strict_float (JObj full_record).
Proof.
  apply (location_ignores_other_keys strict_int strict_float full_record "boundingbox").
  cbn. intros H. repeat (destruct H as [H|H]; [discriminate H|]). exact H.
Defined.

Lemma search_endpoint_turns_down_bad_parameters_witness :
  fastapi.status_code
    (fst (nominatimcontroller.search_address ∅ strict_int strict_float sample_msg
            (answering (JList [JObj full_record])) None fastapi.Malformed))
  = 422
  /\ snd (nominatimcontroller.search_address ∅ strict_int strict_float sample_msg
            (answering (JList [JObj full_record])) None fastapi.Malformed)
     = [].
Proof.
  apply (search_endpoint_turns_down_bad_parameters ∅ strict_int strict_float sample_msg).
  left. reflexivity.
Defined.

Lemma reverse_endpoint_turns_down_bad_parameters_witness :
  fastapi.status_code
    (fst (nominatimcontroller.reverse_geocode ∅ sample_float_str strict_int strict_float
            sample_msg (answering (JObj full_record))
            (fastapi.Given 90.5%float) (fastapi.Given sample_lon)))
  = 422
  /\ snd (nominatimcontroller.reverse_geocode ∅ sample_float_str strict_int strict_float
            sample_msg (answering (JObj full_record))
            (fastapi.Given 90.5%float) (fastapi.Given sample_lon))
     = [].
Proof.
  apply (reverse_endpoint_turns_down_bad_parameters ∅ sample_float_str strict_int
           strict_float sample_msg).
  left. reflexivity.
Defined.

Lemma search_endpoint_blank_query_witness :
  nominatimcontroller.search_address ∅ strict_int strict_float sample_msg
    (answering (JList [JObj full_record])) (Some "   ") fastapi.Missing
  = ({| fastapi.status_code := 400;
        fastapi.body := fastapi.DetailContent NominatimService.empty_query_detail |}, []).
Proof.
  apply (search_endpoint_blank_query ∅ strict_int strict_float sample_msg
           (answering (JList [JObj full_record])) "   " fastapi.Missing 10); reflexivity.
Defined.

Lemma search_endpoint_200_carries_a_result_witness :
  exists query dto,
    Some sample_query = Some query
    /\ blank query = false
    /\ fastapi.body
         (fst (nominatimcontroller.search_address ∅ strict_int strict_float sample_msg
                 (answering (JList [JObj full_record])) (Some sample_query)
                 fastapi.Missing))
       = fastapi.SearchContent dto
    /\ GeocodeSearchResponseDTO.query dto = strip query
    /\ GeocodeSearchResponseDTO.results dto <> []
    /\ GeocodeSearchResponseDTO.total dto
       = Z.of_nat (length (GeocodeSearchResponseDTO.results dto)).
Proof.
  apply (search_endpoint_200_carries_a_result ∅ strict_int strict_float sample_msg
           (answering (JList [JObj full_record])) (Some sample_query) fastapi.Missing).
  vm_compute. reflexivity.
Defined.

Lemma reverse_endpoint_200_carries_a_result_witness :
  exists x y r,
    fastapi.Given sample_lat = fastapi.Given x
    /\ NominatimService.between (-90) x 90 = true
    /\ fastapi.Given sample_lon = fastapi.Given y
    /\ NominatimService.between (-180) y 180 = true
    /\ fastapi.body
         (fst (nominatimcontroller.reverse_geocode ∅ sample_float_str strict_int
                 strict_float sample_msg (answering (JObj full_record))
                 (fastapi.Given sample_lat) (fastapi.Given sample_lon)))
       = fastapi.ReverseContent r
    /\ ReverseGeocodeResponseDTO.lat_input r = x
    /\ ReverseGeocodeResponseDTO.lon_input r = y.
Proof.
  apply (reverse_endpoint_200_carries_a_result ∅ sample_float_str strict_int
           strict_float sample_msg (answering (JObj full_record))
           (fastapi.Given sample_lat) (fastapi.Given sample_lon)).
  vm_compute. reflexivity.
Defined.
